(** * Faster Whisper STT server: model cache and transcription pipeline

    A shallow embedding of [scripts/whisper-server.py] and the properties
    of its model cache ([get_model]) and of its two transcription handlers
    ([transcribe], [transcribe_base64]).

    Conventions of the embedding.
    - A Python [str] is a Rocq [string], one character per code point; the
      model covers the code points up to U+00FF.
    - [bytes] is [list byte].
    - A Python [float] is carried as its binary64 bit pattern: the
      handlers only copy floats from the engine's result into the
      response, and [JSONResponse] looks at them only to refuse an
      infinity or a NaN.
    - Module-level globals ([model_cache], [current_model_name]) are
      fields of an explicit [state]; so are the files the handlers
      create, write and remove ([disk]).  The files the engine keeps
      under [MODELS_DIR] are not part of [disk].
    - Exceptions are the left summand of a state-and-error monad;
      [try]/[except]/[finally] are combinators of that monad.
    - Everything outside the file (torch, the faster-whisper engine,
      [tempfile], [os.unlink], the upload's [read]) is an oracle of the
      record [World], indexed by a logical clock that ticks at every
      external call, so that two calls of the same operation may differ.
    - Logging has no effect on the state and is left out. *)

From Stdlib Require Import ZArith NArith Strings.Ascii Strings.String Strings.Byte List Bool Lia.
From stdpp Require Import base option list strings gmap pretty.

Local Open Scope stdpp_scope.

(** ** Python built-ins used by the server *)

Module Py.

(** [str.isspace] on one character (code points up to U+00FF): the
    characters [str.strip()] removes. *)
Definition isspace (c : ascii) : bool :=
  let n := N_of_ascii c in
  ((9 <=? n) && (n <=? 13) || (28 <=? n) && (n <=? 32)
   || (n =? 133) || (n =? 160))%N.

(** [s.lstrip()] *)
Fixpoint lstrip (s : string) : string :=
  match s with
  | EmptyString => EmptyString
  | String c s' => if isspace c then lstrip s' else s
  end.

(** [s.rstrip()] *)
Fixpoint rstrip (s : string) : string :=
  match s with
  | EmptyString => EmptyString
  | String c s' =>
      match rstrip s' with
      | EmptyString => if isspace c then EmptyString else String c EmptyString
      | r => String c r
      end
  end.

(** [s.strip()]: CPython advances a left index over whitespace, then a
    right index, and slices. *)
Definition strip (s : string) : string := rstrip (lstrip s).

(** [sep.join(xs)] *)
Fixpoint join (sep : string) (xs : list string) : string :=
  match xs with
  | [] => ""
  | x :: rest =>
      match rest with
      | [] => x
      | _ :: _ => x +:+ sep +:+ join sep rest
      end
  end.

(** [c in s] for a one-character [c] *)
Fixpoint contains (c : ascii) (s : string) : bool :=
  match s with
  | EmptyString => false
  | String x s' => if Ascii.eqb x c then true else contains c s'
  end.

(** [s.split(c)] for a one-character separator [c]; the result is never
    empty. *)
Fixpoint split (c : ascii) (s : string) : list string :=
  match s with
  | EmptyString => [""]
  | String x s' =>
      if Ascii.eqb x c then "" :: split c s'
      else match split c s' with
           | [] => [String x ""]
           | p :: ps => String x p :: ps
           end
  end.

(** [x in xs] for a list of strings *)
Definition in_list (x : string) (xs : list string) : bool :=
  existsb (String.eqb x) xs.

(** Truth value of an optional string: [None] and [""] are falsy. *)
Definition truthy (o : option string) : bool :=
  match o with
  | None => false
  | Some s => negb (String.eqb s "")
  end.

Definition starts_with_space (s : string) : bool :=
  match s with
  | EmptyString => false
  | String c _ => isspace c
  end.

Fixpoint ends_with_space (s : string) : bool :=
  match s with
  | EmptyString => false
  | String c s' =>
      match s' with
      | EmptyString => isspace c
      | String _ _ => ends_with_space s'
      end
  end.

(** A string with no whitespace at either end. *)
Definition trimmed (s : string) : Prop :=
  starts_with_space s = false /\ ends_with_space s = false.

(** Every character of [s] is whitespace. *)
Fixpoint all_space (s : string) : bool :=
  match s with
  | EmptyString => true
  | String c s' => isspace c && all_space s'
  end.

End Py.

(** ** Exceptions *)

(** The exceptions the code distinguishes: [except ImportError] selects
    [ImportError] (and its subclasses); every other class deriving from
    [Exception] is [PyException cls msg]. *)
Inductive exn : Type :=
| ImportError (msg : string)
| PyException (cls : string) (msg : string).

(** [str(e)] *)
Definition str_exn (e : exn) : string :=
  match e with
  | ImportError msg => msg
  | PyException _ msg => msg
  end.

(** [fastapi.HTTPException(status_code, detail)]: the only exception the
    handlers let escape. *)
Record HTTPException : Type := mkHTTPException {
  status_code : Z;
  detail : string
}.

(** ** [base64.b64decode] as CPython implements it *)

Module Base64.

Definition bytes : Type := list byte.

Definition byte_of_N (n : N) : byte :=
  match Byte.of_N (n mod 256) with
  | Some b => b
  | None => x00
  end.

(** [table_a2b_base64]: the 6-bit value of an alphabet character. *)
Definition b64_value (c : ascii) : option N :=
  let n := N_of_ascii c in
  if ((65 <=? n) && (n <=? 90))%N then Some (n - 65)%N
  else if ((97 <=? n) && (n <=? 122))%N then Some (n - 71)%N
  else if ((48 <=? n) && (n <=? 57))%N then Some (n + 4)%N
  else if (n =? 43)%N then Some 62%N
  else if (n =? 47)%N then Some 63%N
  else None.

(** The loop of [binascii.a2b_base64] in its default, non-strict mode:
    characters outside the alphabet are skipped, a complete pad sequence
    ends the input, and an incomplete last quad is an error.  [out] is
    the output so far, in reverse; [ndata] counts alphabet characters. *)
Fixpoint a2b_loop (data : string) (quad_pos : nat) (leftchar : N)
    (pads : nat) (ndata : N) (out : list byte) : exn + bytes :=
  match data with
  | EmptyString =>
      match quad_pos with
      | 0 => inr (rev out)
      | 1 => inl (PyException "binascii.Error"
               ("Invalid base64-encoded string: number of data characters ("
                +:+ pretty ndata
                +:+ ") cannot be 1 more than a multiple of 4"))
      | _ => inl (PyException "binascii.Error" "Incorrect padding")
      end
  | String c rest =>
      if Ascii.eqb c "="%char then
        if (2 <=? quad_pos) && (4 <=? quad_pos + S pads) then inr (rev out)
        else a2b_loop rest quad_pos leftchar
               (if 2 <=? quad_pos then S pads else pads) ndata out
      else
        match b64_value c with
        | None => a2b_loop rest quad_pos leftchar pads ndata out
        | Some v =>
            match quad_pos with
            | 0 => a2b_loop rest 1 v 0 (ndata + 1)%N out
            | 1 => a2b_loop rest 2 (N.land v 15) 0 (ndata + 1)%N
                     (byte_of_N (N.lor (N.shiftl leftchar 2) (N.shiftr v 4)) :: out)
            | 2 => a2b_loop rest 3 (N.land v 3) 0 (ndata + 1)%N
                     (byte_of_N (N.lor (N.shiftl leftchar 4) (N.shiftr v 2)) :: out)
            | _ => a2b_loop rest 0 0%N 0 (ndata + 1)%N
                     (byte_of_N (N.lor (N.shiftl leftchar 6) v) :: out)
            end
        end
  end.

(** A [str] argument must be ASCII. *)
Fixpoint is_ascii (s : string) : bool :=
  match s with
  | EmptyString => true
  | String c s' => (N_of_ascii c <? 128)%N && is_ascii s'
  end.

(** [base64.b64decode(s)] with the default [validate=False]. *)
Definition b64decode (s : string) : exn + bytes :=
  if is_ascii s then a2b_loop s 0 0%N 0 0%N []
  else inl (PyException "ValueError"
              "string argument should contain only ASCII characters").

End Base64.

(** ** Data of the server and of the engine *)

(** A Python [float], as its binary64 bit pattern. *)
Definition float : Type := N.

Definition bytes : Type := list byte.

(** A loaded [faster_whisper.WhisperModel]: the arguments it was built
    with, and the tick of its construction as the identity of the object. *)
Record WhisperModel : Type := mkWhisperModel {
  wm_model_name : string;
  wm_device : string;
  wm_compute_type : string;
  wm_download_root : string;
  wm_id : nat
}.

(** One segment yielded by the engine. *)
Record Segment : Type := mkSegment {
  seg_start : float;
  seg_end : float;
  seg_text : string;
  seg_avg_logprob : float
}.

(** The engine's summary of a transcription. *)
Record TranscriptionInfo : Type := mkTranscriptionInfo {
  info_language : string;
  info_language_probability : float;
  info_duration : float
}.

(** The lazy segment generator: the segments it yields and, if it fails
    on the way, the exception it raises after them. *)
Record SegmentStream : Type := mkSegmentStream {
  yielded : list Segment;
  fault : option exn
}.

Record VadParameters : Type := mkVadParameters {
  min_silence_duration_ms : Z;
  speech_pad_ms : Z
}.

(** [fastapi.UploadFile] *)
Record UploadFile : Type := mkUploadFile {
  filename : option string;
  content : bytes
}.

(** One entry of the ["segments"] list of the [/transcribe] response. *)
Record SegmentDict : Type := mkSegmentDict {
  sd_start : float;
  sd_end : float;
  sd_text : string;
  sd_confidence : float
}.

(** The content of the two [JSONResponse]s. *)
Inductive JSONResponse : Type :=
| TranscribeContent (text language : string)
    (language_probability duration : float) (segments : list SegmentDict)
| Base64Content (text language : string)
    (language_probability duration : float).

(** The dict [/health] returns. *)
Record HealthDict : Type := mkHealthDict {
  h_status : string;
  h_model_loaded : bool;
  h_current_model : option string;
  h_available_models : list string
}.

(** The dict [/models] returns. *)
Record ModelsDict : Type := mkModelsDict {
  m_models : list string;
  m_current : option string;
  m_default : string
}.

(** The environment variables read at import time. *)
Record Config : Type := mkConfig {
  MODELS_DIR : string;
  DEFAULT_MODEL : string;
  DEVICE : string;
  COMPUTE_TYPE : string
}.

(** What the server does to the outside, in order: the engine
    constructor invoked, a temporary file created, written, removed, an
    inference started. *)
Inductive event : Type :=
| EvLoad (model_name device compute_type download_root : string)
| EvCreate (path : string)
| EvWriteFile (path : string) (data : bytes)
| EvUnlink (path : string)
| EvTranscribe (model : WhisperModel) (path : option string)
    (language : option string) (task : string)
    (vad_filter : bool) (vad_parameters : VadParameters).

(** The globals of the module and the part of the world the handlers
    touch.  [disk] is the files the handlers themselves create, write and
    remove, by path; what the engine keeps of its own under [MODELS_DIR]
    (the weights a first load may download) is the engine's business and
    is not part of it. *)
Record state : Type := mkState {
  model_cache : gmap string WhisperModel;
  current_model_name : option string;
  disk : gmap string bytes;
  clock : nat;
  trace : list event
}.

(** The outside world.  Each oracle gets the tick at which it is called.
    [None] in an [option exn] means that the call succeeded. *)
Record World : Type := mkWorld {
  (** [import torch; torch.cuda.is_available()] *)
  torch_cuda_is_available : nat -> exn + bool;
  (** [WhisperModel(model_name, device=, compute_type=, download_root=)] *)
  WhisperModel_init : nat -> string -> string -> string -> string -> option exn;
  (** [tempfile.gettempdir()] *)
  gettempdir : string;
  (** the random characters [tempfile.NamedTemporaryFile] puts into the
      name it tries, or the error of creating the file *)
  NamedTemporaryFile_random : nat -> exn + string;
  (** [await audio.read()] *)
  UploadFile_read : nat -> option exn;
  (** [tmp_file.write(data)] *)
  tmp_file_write : nat -> option exn;
  (** closing the file when the [with] block is left *)
  tmp_file_close : nat -> option exn;
  (** [os.unlink(path)] *)
  os_unlink : nat -> option exn;
  (** [whisper_model.transcribe(path, language=, task=, vad_filter=,
      vad_parameters=)], given what the file at [path] holds *)
  WhisperModel_transcribe :
    nat -> WhisperModel -> option string -> option bytes ->
    option string -> string -> bool -> VadParameters ->
    exn + (SegmentStream * TranscriptionInfo);
  (** [pathlib.Path(name).suffix] *)
  Path_suffix : string -> string;
  (** [base64.b64decode(s)] *)
  b64decode : string -> exn + bytes
}.

Definition AVAILABLE_MODELS : list string :=
  ["tiny"; "tiny.en"; "base"; "base.en"; "small"; "small.en";
   "medium"; "medium.en"; "large-v2"; "large-v3"].

(** The state when the module has been imported: nothing cached, nothing
    on disk. *)
Definition initial_state : state :=
  mkState ∅ None ∅ 0 [].

(** ** The monad: state, exceptions of type [E], locals of type [L] *)

Definition M (E L A : Type) : Type := L -> state -> (E + A) * L * state.

Definition ret {E L A} (a : A) : M E L A :=
  fun l s => (inr a, l, s).

Definition raise {E L A} (e : E) : M E L A :=
  fun l s => (inl e, l, s).

Definition bind {E L A B} (m : M E L A) (k : A -> M E L B) : M E L B :=
  fun l s =>
    match m l s with
    | (inr a, l', s') => k a l' s'
    | (inl e, l', s') => (inl e, l', s')
    end.

(** [try: body except Exception as e: handler e] *)
Definition try_except {E E' L A} (body : M E L A) (handler : E -> M E' L A)
    : M E' L A :=
  fun l s =>
    match body l s with
    | (inr a, l', s') => (inr a, l', s')
    | (inl e, l', s') => handler e l' s'
    end.

(** [try: body finally: final]: [final] runs on every exit of [body]; an
    exception of [final] replaces the outcome of [body]. *)
Definition try_finally {E L A} (body : M E L A) (final : M E L unit)
    : M E L A :=
  fun l s =>
    match body l s with
    | (r, l', s') =>
        match final l' s' with
        | (inr _, l'', s'') => (r, l'', s'')
        | (inl e, l'', s'') => (inl e, l'', s'')
        end
    end.

(** Calling a function: it runs in a frame of its own. *)
Definition call {E L L' A} (f : M E L' A) (frame : L') : M E L A :=
  fun l s => match f frame s with (r, _, s') => (r, l, s') end.

(** Running a handler from its first statement, locals not yet bound. *)
Definition run {E L A} (f : M E L A) (frame : L) (s : state) : (E + A) * state :=
  match f frame s with (r, _, s') => (r, s') end.

Definition get_local {E L} : M E L L := fun l s => (inr l, l, s).
Definition put_local {E L} (l' : L) : M E L unit := fun _ s => (inr tt, l', s).
Definition get_state {E L} : M E L state := fun l s => (inr s, l, s).
Definition put_state {E L} (s' : state) : M E L unit := fun l _ => (inr tt, l, s').

Declare Scope monad_scope.
Delimit Scope monad_scope with monad.
Notation "'let*' x := m 'in' k" := (bind m (fun x => k))
  (at level 10, x name, m at level 99, k at level 200) : monad_scope.
Notation "'let*' ' p := m 'in' k" := (bind m (fun x => match x with p => k end))
  (at level 10, p pattern, m at level 99, k at level 200) : monad_scope.
Notation "m ;; k" := (bind m (fun _ => k))
  (at level 100, right associativity) : monad_scope.
Local Open Scope monad_scope.

(** ** Steps that touch the state *)

Definition set_model_cache (c : gmap string WhisperModel) (s : state) : state :=
  mkState c (current_model_name s) (disk s) (clock s) (trace s).
Definition set_current_model_name (n : option string) (s : state) : state :=
  mkState (model_cache s) n (disk s) (clock s) (trace s).
Definition set_disk (d : gmap string bytes) (s : state) : state :=
  mkState (model_cache s) (current_model_name s) d (clock s) (trace s).
Definition set_clock (n : nat) (s : state) : state :=
  mkState (model_cache s) (current_model_name s) (disk s) n (trace s).
Definition add_event (ev : event) (s : state) : state :=
  mkState (model_cache s) (current_model_name s) (disk s) (clock s)
    (trace s ++ [ev]).

(** The tick of an external call; the clock moves on. *)
Definition tick {E L} : M E L nat :=
  fun l s => (inr (clock s), l, set_clock (S (clock s)) s).

Definition emit {E L} (ev : event) : M E L unit :=
  fun l s => (inr tt, l, add_event ev s).

(** Turning an oracle's answer into an outcome. *)
Definition of_fault {L} (o : option exn) : M exn L unit :=
  match o with
  | Some e => raise e
  | None => ret tt
  end.

Definition of_sum {L A} (r : exn + A) : M exn L A :=
  match r with
  | inl e => raise e
  | inr a => ret a
  end.

(** The path [tempfile] gives a file: directory, the prefix ["tmp"], the
    random characters, the suffix. *)
Definition temp_name (dir random suffix : string) : string :=
  dir +:+ "/tmp" +:+ random +:+ suffix.

(** ** The server *)

Section Server.

Variable cfg : Config.
Variable W : World.

(** *** Lines 52-86: [get_model] *)

(** Lines 55-56: an identifier outside [AVAILABLE_MODELS] becomes
    [DEFAULT_MODEL]. *)
Definition normalize_model_name (model_name : string) : string :=
  if negb (Py.in_list model_name AVAILABLE_MODELS) then DEFAULT_MODEL cfg
  else model_name.

(** Lines 63-69: the device to load on. *)
Definition resolve_device {L} : M exn L string :=
  let device := DEVICE cfg in
  if String.eqb device "auto" then
    try_except
      (let* t := tick in
       let* available := of_sum (torch_cuda_is_available W t) in
       ret (if available : bool then "cuda" else "cpu"))
      (fun e =>
         match e with
         | ImportError _ => ret "cpu"
         | PyException _ _ => raise e
         end)
  else ret device.

(** Lines 71-73: the precision to load with. *)
Definition resolve_compute_type (device : string) : string :=
  let compute_type := COMPUTE_TYPE cfg in
  if String.eqb compute_type "auto" then
    if String.eqb device "cuda" then "float16" else "int8"
  else compute_type.

(** Lines 75-80: the engine constructor.  Its outcome is the world's; the
    files it may fetch into [download_root] are outside [disk]. *)
Definition WhisperModel_new {L}
    (model_name device compute_type download_root : string)
    : M exn L WhisperModel :=
  let* t := tick in
  emit (EvLoad model_name device compute_type download_root) ;;
  of_fault (WhisperModel_init W t model_name device compute_type download_root) ;;
  ret (mkWhisperModel model_name device compute_type download_root t).

Definition get_model (model_name : string) : M exn unit WhisperModel :=
  let model_name := normalize_model_name model_name in
  let* s := get_state in
  match model_cache s !! model_name with
  | Some cached => ret cached
  | None =>
      let* device := resolve_device in
      let compute_type := resolve_compute_type device in
      let* model :=
        WhisperModel_new model_name device compute_type (MODELS_DIR cfg) in
      let* s := get_state in
      put_state (set_model_cache (<[model_name := model]> (model_cache s)) s) ;;
      let* s := get_state in
      put_state (set_current_model_name (Some model_name) s) ;;
      ret model
  end.

(** *** Lines 89-98: [startup_event] *)

Definition startup_event : M exn unit unit :=
  try_except
    (call (get_model (DEFAULT_MODEL cfg)) tt ;; ret tt)
    (fun _ => ret tt).

(** *** Lines 101-117: [health] and [list_models] *)

Definition health (s : state) : HealthDict :=
  mkHealthDict "healthy"
    (match current_model_name s with Some _ => true | None => false end)
    (current_model_name s) AVAILABLE_MODELS.

Definition list_models (s : state) : ModelsDict :=
  mkModelsDict AVAILABLE_MODELS (current_model_name s) (DEFAULT_MODEL cfg).

(** *** Temporary files *)

(** [tempfile.NamedTemporaryFile(delete=False, suffix=suffix)]: the
    file is created, empty, under a name that was free. *)
Definition NamedTemporaryFile {L} (suffix : string) : M exn L string :=
  let* t := tick in
  let* random := of_sum (NamedTemporaryFile_random W t) in
  let name := temp_name (gettempdir W) random suffix in
  let* s := get_state in
  match disk s !! name with
  | Some _ =>
      raise (PyException "FileExistsError"
               "No usable temporary file name found")
  | None =>
      put_state (set_disk (<[name := []]> (disk s)) s) ;;
      emit (EvCreate name) ;;
      ret name
  end.

(** [tmp_file.write(data)]; a write that fails leaves the file as it
    was. *)
Definition write {L} (tmp_file : string) (data : bytes) : M exn L unit :=
  let* t := tick in
  of_fault (tmp_file_write W t) ;;
  let* s := get_state in
  put_state (set_disk (<[tmp_file := data]> (disk s)) s) ;;
  emit (EvWriteFile tmp_file data).

(** Leaving [with ... as tmp_file:]: the file is closed, whether the
    block raised or not, and stays on disk ([delete=False]). *)
Definition close {L} : M exn L unit :=
  let* t := tick in
  of_fault (tmp_file_close W t).

Definition with_file {L A} (block : M exn L A) : M exn L A :=
  try_finally block close.

(** [await audio.read()] *)
Definition read {L} (audio : UploadFile) : M exn L bytes :=
  let* t := tick in
  of_fault (UploadFile_read W t) ;;
  ret (content audio).

(** [os.unlink(path)] *)
Definition unlink {L} (path : string) : M exn L unit :=
  let* t := tick in
  of_fault (os_unlink W t) ;;
  let* s := get_state in
  match disk s !! path with
  | None => raise (PyException "FileNotFoundError" path)
  | Some _ =>
      put_state (set_disk (delete path (disk s)) s) ;;
      emit (EvUnlink path)
  end.

(** Lines 178-183 and 237-242: the [finally] block. *)
Definition cleanup {E} : M E (option string) unit :=
  let* tmp_path := get_local in
  if Py.truthy tmp_path then
    try_except (unlink (default "" tmp_path)) (fun _ => ret tt)
  else ret tt.

(** *** Inference *)

Definition vad_parameters : VadParameters := mkVadParameters 500 400.

(** [whisper_model.transcribe(tmp_path, ...)] *)
Definition model_transcribe {L} (whisper_model : WhisperModel)
    (tmp_path : option string) (language : option string) (task : string)
    : M exn L (SegmentStream * TranscriptionInfo) :=
  let* t := tick in
  emit (EvTranscribe whisper_model tmp_path language task true vad_parameters) ;;
  let* s := get_state in
  of_sum (WhisperModel_transcribe W t whisper_model tmp_path
            (tmp_path ≫= fun p => disk s !! p)
            language task true vad_parameters).

(** [list(segments)]: the generator is run to its end. *)
Definition list_of {L} (segments : SegmentStream) : M exn L (list Segment) :=
  match fault segments with
  | Some e => raise e
  | None => ret (yielded segments)
  end.

(** Lines 154 and 224 *)
Definition full_text_of (segments_list : list Segment) : string :=
  Py.join " " (map (fun segment => Py.strip (seg_text segment)) segments_list).

(** Lines 161-169 *)
Definition segment_dict (seg : Segment) : SegmentDict :=
  mkSegmentDict (seg_start seg) (seg_end seg) (Py.strip (seg_text seg))
    (seg_avg_logprob seg).

(** A binary64 bit pattern that is neither an infinity nor a NaN: its
    exponent field is not all ones. *)
Definition is_finite (f : float) : bool :=
  negb (N.eqb (N.land (N.shiftr f 52) 2047) 2047).

(** The floats in the content of a response. *)
Definition content_floats (c : JSONResponse) : list float :=
  match c with
  | TranscribeContent _ _ language_probability duration segments =>
      language_probability :: duration
      :: flat_map (fun sd => [sd_start sd; sd_end sd; sd_confidence sd])
           segments
  | Base64Content _ _ language_probability duration =>
      [language_probability; duration]
  end.

Definition json_compliant (c : JSONResponse) : bool :=
  forallb is_finite (content_floats c).

(** Lines 172 and 226: [JSONResponse(content=...)] renders its content
    when it is built, with [json.dumps(..., allow_nan=False)], which
    raises [ValueError] on a float that is infinite or NaN. *)
Definition JSONResponse_new {L} (c : JSONResponse) : M exn L JSONResponse :=
  if json_compliant c then ret c
  else raise (PyException "ValueError"
                "Out of range float values are not JSON compliant").

(** *** Lines 120-183: [POST /transcribe] *)

Definition transcribe_body (audio : UploadFile) (model : string)
    (language : option string) (task : string)
    : M HTTPException (option string) JSONResponse :=
  if negb (Py.truthy (filename audio)) then
    raise (mkHTTPException 400 "No audio file provided")
  else
    let suffix :=
      let suffix := Path_suffix W (default "" (filename audio)) in
      if String.eqb suffix "" then ".webm" else suffix in
    put_local None ;;
    try_finally
      (try_except
         (let* tmp_file := NamedTemporaryFile suffix in
          with_file
            (let* content := read audio in
             write tmp_file content ;;
             put_local (Some tmp_file)) ;;
          let* whisper_model := call (get_model model) tt in
          let* tmp_path := get_local in
          let* '(segments, info) :=
            model_transcribe whisper_model tmp_path language task in
          let* segments_list := list_of segments in
          let full_text := full_text_of segments_list in
          JSONResponse_new
            (TranscribeContent full_text (info_language info)
               (info_language_probability info) (info_duration info)
               (map segment_dict segments_list)))
         (fun e => raise (mkHTTPException 500 (str_exn e))))
      cleanup.

Definition transcribe (audio : UploadFile) (model : string)
    (language : option string) (task : string) (s : state)
    : (HTTPException + JSONResponse) * state :=
  run (transcribe_body audio model language task) None s.

(** *** [transcribe] in two turns of the event loop

    [await audio.read()] on line 135 is the one place where a handler can
    be suspended; other requests may be served before it goes on.
    [transcribe_begin] is the handler up to that point: it ends with an
    [HTTPException], or it is suspended with the temporary file created
    and [tmp_path] still [None].  [transcribe_resume] is the handler from
    that point on.  Every other function of the module runs without
    suspension. *)
Definition transcribe_begin (audio : UploadFile)
    : M HTTPException (option string) string :=
  if negb (Py.truthy (filename audio)) then
    raise (mkHTTPException 400 "No audio file provided")
  else
    let suffix :=
      let suffix := Path_suffix W (default "" (filename audio)) in
      if String.eqb suffix "" then ".webm" else suffix in
    put_local None ;;
    try_except
      (NamedTemporaryFile suffix)
      (fun e =>
         try_finally (raise (mkHTTPException 500 (str_exn e))) cleanup).

Definition transcribe_resume (audio : UploadFile) (model : string)
    (language : option string) (task : string) (tmp_file : string)
    : M HTTPException (option string) JSONResponse :=
  try_finally
    (try_except
       (with_file
          (let* content := read audio in
           write tmp_file content ;;
           put_local (Some tmp_file)) ;;
        let* whisper_model := call (get_model model) tt in
        let* tmp_path := get_local in
        let* '(segments, info) :=
          model_transcribe whisper_model tmp_path language task in
        let* segments_list := list_of segments in
        let full_text := full_text_of segments_list in
        JSONResponse_new
          (TranscribeContent full_text (info_language info)
             (info_language_probability info) (info_duration info)
             (map segment_dict segments_list)))
       (fun e => raise (mkHTTPException 500 (str_exn e))))
    cleanup.

(** *** Lines 186-242: [POST /transcribe-base64] *)

(** Lines 201-202: a payload with a comma is replaced by the second
    piece of its split at commas. *)
Definition strip_preamble (audio_data : string) : exn + string :=
  if Py.contains "," audio_data then
    match Py.split "," audio_data !! 1 with
    | Some piece => inr piece
    | None => inl (PyException "IndexError" "list index out of range")
    end
  else inr audio_data.

(** The request is the JSON object of the body; its fields, when
    present, are strings. *)
Definition transcribe_base64_body (request : gmap string string)
    : M HTTPException (option string) JSONResponse :=
  let audio_data := request !! "audio" in
  let model_name := default (DEFAULT_MODEL cfg) (request !! "model") in
  let language := request !! "language" in
  let file_format := default "webm" (request !! "format") in
  if negb (Py.truthy audio_data) then
    raise (mkHTTPException 400 "No audio data provided")
  else
    put_local None ;;
    try_finally
      (try_except
         (let* audio_data := of_sum (strip_preamble (default "" audio_data)) in
          let* audio_bytes := of_sum (b64decode W audio_data) in
          let* tmp_file := NamedTemporaryFile ("." +:+ file_format) in
          with_file
            (write tmp_file audio_bytes ;;
             put_local (Some tmp_file)) ;;
          let* whisper_model := call (get_model model_name) tt in
          let* tmp_path := get_local in
          let* '(segments, info) :=
            model_transcribe whisper_model tmp_path language "transcribe" in
          let* segments_list := list_of segments in
          let full_text := full_text_of segments_list in
          JSONResponse_new
            (Base64Content full_text (info_language info)
               (info_language_probability info) (info_duration info)))
         (fun e => raise (mkHTTPException 500 (str_exn e))))
      cleanup.

Definition transcribe_base64 (request : gmap string string) (s : state)
    : (HTTPException + JSONResponse) * state :=
  run (transcribe_base64_body request) None s.

End Server.

(** ** Requests as a sequence of operations

    What the event loop runs without interruption: the start-up hook, the
    two status endpoints, a call of [get_model], a whole request, or one
    of the two turns of a [/transcribe] request, so that a sequence of
    operations may interleave the turns of several requests. *)

Inductive op : Type :=
| OpStartup
| OpHealth
| OpListModels
| OpGetModel (model_name : string)
| OpTranscribe (audio : UploadFile) (model : string)
    (language : option string) (task : string)
| OpTranscribeBase64 (request : gmap string string)
| OpTranscribeBegin (audio : UploadFile)
| OpTranscribeResume (audio : UploadFile) (model : string)
    (language : option string) (task : string) (tmp_file : string).

(** The state after one operation. *)
Definition step (cfg : Config) (W : World) (o : op) (s : state) : state :=
  match o with
  | OpStartup => snd (run (startup_event cfg W) tt s)
  | OpHealth => s
  | OpListModels => s
  | OpGetModel model_name => snd (run (get_model cfg W model_name) tt s)
  | OpTranscribe audio model language task =>
      snd (transcribe cfg W audio model language task s)
  | OpTranscribeBase64 request => snd (transcribe_base64 cfg W request s)
  | OpTranscribeBegin audio => snd (run (transcribe_begin W audio) None s)
  | OpTranscribeResume audio model language task tmp_file =>
      snd (run (transcribe_resume cfg W audio model language task tmp_file)
             None s)
  end.

Definition steps (cfg : Config) (W : World) (ops : list op) (s : state) : state :=
  fold_left (fun s o => step cfg W o s) ops s.

(** [current_model_name] is [None] or a key of [model_cache]. *)
Definition current_model_cached (s : state) : Prop :=
  match current_model_name s with
  | None => True
  | Some name => is_Some (model_cache s !! name)
  end.

(** How often the engine constructor was invoked. *)
Fixpoint load_count (tr : list event) : nat :=
  match tr with
  | [] => 0
  | EvLoad _ _ _ _ :: tr' => S (load_count tr')
  | _ :: tr' => load_count tr'
  end.

(** The temporary files created. *)
Fixpoint created (tr : list event) : list string :=
  match tr with
  | [] => []
  | EvCreate path :: tr' => path :: created tr'
  | _ :: tr' => created tr'
  end.

(** The part of [rest] before its first comma. *)
Fixpoint until_comma (rest : string) : string :=
  match rest with
  | EmptyString => EmptyString
  | String c rest' =>
      if Ascii.eqb c "," then EmptyString else String c (until_comma rest')
  end.

(** ** Sample configurations and worlds, for running the model *)

Module Sample.

Definition cfg_auto : Config :=
  mkConfig "/root/.cache/whisper" "base" "auto" "auto".

Definition cfg_cpu : Config :=
  mkConfig "/root/.cache/whisper" "base" "cpu" "int8".

(** The part of [s] from its last dot on, if it has a dot. *)
Fixpoint from_last_dot (s : string) : option string :=
  match s with
  | EmptyString => None
  | String c s' =>
      match from_last_dot s' with
      | Some r => Some r
      | None => if Ascii.eqb c "." then Some s else None
      end
  end.

(** [Path(name).suffix] for a bare file name: from the last dot on,
    unless that dot is the first or the last character. *)
Definition suffix_of_name (name : string) : string :=
  match name with
  | EmptyString => ""
  | String _ rest =>
      match from_last_dot rest with
      | Some r => if Nat.eqb (String.length r) 1 then "" else r
      | None => ""
      end
  end.

Definition hello : list Segment :=
  [mkSegment 0%N 0%N " Hello" 0%N; mkSegment 0%N 0%N " world  " 0%N].

(** No GPU, no fault anywhere; every inference yields [hello]. *)
Definition quiet : World := {|
  torch_cuda_is_available := fun _ => inr false;
  WhisperModel_init := fun _ _ _ _ _ => None;
  gettempdir := "/tmp";
  NamedTemporaryFile_random := fun t => inr (pretty t);
  UploadFile_read := fun _ => None;
  tmp_file_write := fun _ => None;
  tmp_file_close := fun _ => None;
  os_unlink := fun _ => None;
  WhisperModel_transcribe := fun _ _ _ _ _ _ _ _ =>
    inr (mkSegmentStream hello None, mkTranscriptionInfo "en" 0%N 0%N);
  Path_suffix := suffix_of_name;
  b64decode := Base64.b64decode
|}.

(** As [quiet], but the engine constructor fails until tick [n]. *)
Definition load_fails_before (n : nat) : World := {|
  torch_cuda_is_available := torch_cuda_is_available quiet;
  WhisperModel_init := fun t _ _ _ _ =>
    if t <? n then Some (PyException "RuntimeError" "download failed")
    else None;
  gettempdir := gettempdir quiet;
  NamedTemporaryFile_random := NamedTemporaryFile_random quiet;
  UploadFile_read := UploadFile_read quiet;
  tmp_file_write := tmp_file_write quiet;
  tmp_file_close := tmp_file_close quiet;
  os_unlink := os_unlink quiet;
  WhisperModel_transcribe := WhisperModel_transcribe quiet;
  Path_suffix := Path_suffix quiet;
  b64decode := b64decode quiet
|}.

(** As [quiet], but the disk is full: every write fails. *)
Definition disk_full : World := {|
  torch_cuda_is_available := torch_cuda_is_available quiet;
  WhisperModel_init := WhisperModel_init quiet;
  gettempdir := gettempdir quiet;
  NamedTemporaryFile_random := NamedTemporaryFile_random quiet;
  UploadFile_read := UploadFile_read quiet;
  tmp_file_write := fun _ =>
    Some (PyException "OSError" "[Errno 28] No space left on device");
  tmp_file_close := tmp_file_close quiet;
  os_unlink := os_unlink quiet;
  WhisperModel_transcribe := WhisperModel_transcribe quiet;
  Path_suffix := Path_suffix quiet;
  b64decode := b64decode quiet
|}.

(** As [quiet], but importing torch fails on a missing shared library,
    which is an [OSError], not an [ImportError]. *)
Definition broken_torch : World := {|
  torch_cuda_is_available := fun _ =>
    inl (PyException "OSError"
           "libcudart.so.12: cannot open shared object file");
  WhisperModel_init := WhisperModel_init quiet;
  gettempdir := gettempdir quiet;
  NamedTemporaryFile_random := NamedTemporaryFile_random quiet;
  UploadFile_read := UploadFile_read quiet;
  tmp_file_write := tmp_file_write quiet;
  tmp_file_close := tmp_file_close quiet;
  os_unlink := os_unlink quiet;
  WhisperModel_transcribe := WhisperModel_transcribe quiet;
  Path_suffix := Path_suffix quiet;
  b64decode := b64decode quiet
|}.

(** As [quiet], but the engine rejects whatever it is given. *)
Definition deaf : World := {|
  torch_cuda_is_available := torch_cuda_is_available quiet;
  WhisperModel_init := WhisperModel_init quiet;
  gettempdir := gettempdir quiet;
  NamedTemporaryFile_random := NamedTemporaryFile_random quiet;
  UploadFile_read := UploadFile_read quiet;
  tmp_file_write := tmp_file_write quiet;
  tmp_file_close := tmp_file_close quiet;
  os_unlink := os_unlink quiet;
  WhisperModel_transcribe := fun _ _ _ _ _ _ _ _ =>
    inl (PyException "InvalidDataError" "Invalid data found when processing input");
  Path_suffix := Path_suffix quiet;
  b64decode := b64decode quiet
|}.

Definition upload_wav : UploadFile := mkUploadFile (Some "a.wav") [x52; x49].

Definition empty_upload_wav : UploadFile := mkUploadFile (Some "a.wav") [].

(** An upload of 9000 bytes, more than the file object buffers, so that
    [write] hands them to the operating system. *)
Definition long_upload_wav : UploadFile :=
  mkUploadFile (Some "a.wav") (repeat x00 (N.to_nat 9000)).

Fixpoint repeat_string (n : nat) (s : string) : string :=
  match n with
  | 0 => ""
  | S n' => s +:+ repeat_string n' s
  end.

(** The base64 text of 9000 zero bytes. *)
Definition long_base64 : string := repeat_string 3000 "AAAA".

End Sample.

(** ** Further observations on traces and on the cache *)

(** How often an inference was started. *)
Fixpoint inference_count (tr : list event) : nat :=
  match tr with
  | [] => 0
  | EvTranscribe _ _ _ _ _ _ :: tr' => S (inference_count tr')
  | _ :: tr' => inference_count tr'
  end.

(** The temporary files removed. *)
Fixpoint unlinked (tr : list event) : list string :=
  match tr with
  | [] => []
  | EvUnlink path :: tr' => path :: unlinked tr'
  | _ :: tr' => unlinked tr'
  end.

(** The identifiers [get_model] can end up loading. *)
Definition loadable_names (cfg : Config) : list string :=
  DEFAULT_MODEL cfg :: AVAILABLE_MODELS.

(** An instance as lines 63-80 build it for [name]: that name, the
    configured directory, the configured device or, under ["auto"], one of
    ["cuda"] and ["cpu"], and the precision that goes with the device. *)
Definition built_for (cfg : Config) (name : string) (h : WhisperModel) : Prop :=
  wm_model_name h = name
  /\ wm_download_root h = MODELS_DIR cfg
  /\ name ∈ loadable_names cfg
  /\ (if String.eqb (DEVICE cfg) "auto"
      then wm_device h = "cuda" \/ wm_device h = "cpu"
      else wm_device h = DEVICE cfg)
  /\ wm_compute_type h = resolve_compute_type cfg (wm_device h).

(** Every entry of the cache is as [get_model] builds it. *)
Definition cache_well_formed (cfg : Config) (s : state) : Prop :=
  forall name h, model_cache s !! name = Some h -> built_for cfg name h.

(** [current_model_name] is [None] exactly when nothing is cached. *)
Definition current_iff_loaded (s : state) : Prop :=
  current_model_name s = None <-> model_cache s = ∅.

(** The two globals of [s'] are those of [s], or those a call of
    [get_model] leaves when started with the globals of [s]. *)
Definition globals_by_get_model (cfg : Config) (W : World) (s s' : state)
    : Prop :=
  (model_cache s' = model_cache s
   /\ current_model_name s' = current_model_name s)
  \/ exists model_name s1 r l s2,
       model_cache s1 = model_cache s
       /\ current_model_name s1 = current_model_name s
       /\ get_model cfg W model_name tt s1 = (r, l, s2)
       /\ model_cache s' = model_cache s2
       /\ current_model_name s' = current_model_name s2.

(** A call of [get_model] that went through lines 61-86 from [s]: the
    device is resolved and, unless that raises, the engine constructor is
    invoked once, and the outcome [r] of the call is the outcome of that
    invocation; [s'] is the state the call leaves. *)
Definition runs_a_load (cfg : Config) (W : World) (name : string)
    (s : state) (r : exn + WhisperModel) (s' : state) : Prop :=
  match resolve_device cfg W tt s with
  | (inl e, _, s0) => r = inl e /\ s' = s0
  | (inr device, _, s0) =>
      let compute_type := resolve_compute_type cfg device in
      trace s' = trace s ++ [EvLoad name device compute_type (MODELS_DIR cfg)]
      /\ match WhisperModel_init W (clock s0) name device compute_type
                 (MODELS_DIR cfg) with
         | Some e => r = inl e /\ model_cache s' = model_cache s
         | None =>
             r = inr (mkWhisperModel name device compute_type (MODELS_DIR cfg)
                        (clock s0))
             /\ model_cache s'
                = <[name := mkWhisperModel name device compute_type
                              (MODELS_DIR cfg) (clock s0)]> (model_cache s)
         end
  end.

(** * Properties *)

(** ** Proof tools *)

Ltac unfold_monad :=
  unfold bind, ret, raise, try_except, try_finally, call, run,
    get_local, put_local, get_state, put_state, tick, emit,
    of_fault, of_sum in *.

(** Split on the next oracle answer or lookup the computation waits for. *)
Ltac case_step :=
  match goal with
  | |- context [match ?x with _ => _ end] =>
      lazymatch x with
      | context [match _ with _ => _ end] => fail
      | _ => destruct x eqn:?
      end
  | |- context [if ?x then _ else _] =>
      lazymatch x with
      | context [match _ with _ => _ end] => fail
      | context [if _ then _ else _] => fail
      | _ => destruct x eqn:?
      end
  end.

Ltac case_steps := repeat (case_step; cbn in *).

Lemma load_count_app (tr1 tr2 : list event) :
  load_count (tr1 ++ tr2) = load_count tr1 + load_count tr2.
Proof.
  induction tr1 as [|ev tr1 IH]; [reflexivity|].
  destruct ev; cbn; rewrite IH; reflexivity.
Qed.

Lemma created_app (tr1 tr2 : list event) :
  created (tr1 ++ tr2) = created tr1 ++ created tr2.
Proof.
  induction tr1 as [|ev tr1 IH]; [reflexivity|].
  destruct ev; cbn; rewrite IH; reflexivity.
Qed.

(** ** [get_model] *)

Section GetModel.

Variable cfg : Config.
Variable W : World.

Lemma normalize_model_name_idem (model_name : string) :
  normalize_model_name cfg (normalize_model_name cfg model_name)
  = normalize_model_name cfg model_name.
Proof.
  unfold normalize_model_name.
  destruct (Py.in_list model_name AVAILABLE_MODELS) eqn:Hin; cbv [negb].
  - rewrite Hin. reflexivity.
  - destruct (Py.in_list (DEFAULT_MODEL cfg) AVAILABLE_MODELS); reflexivity.
Qed.

(** A hit returns the cached instance and changes nothing. *)
Lemma get_model_hit (model_name : string) (s : state) (h : WhisperModel) :
  model_cache s !! normalize_model_name cfg model_name = Some h ->
  get_model cfg W model_name tt s = (inr h, tt, s).
Proof.
  intros Hhit. unfold get_model. unfold_monad. rewrite Hhit. reflexivity.
Qed.

(** What a call does, by its outcome. *)
Lemma get_model_spec (model_name : string) (s : state) :
  let name := normalize_model_name cfg model_name in
  match get_model cfg W model_name tt s with
  | (inr h, _, s') =>
      (model_cache s !! name = Some h /\ s' = s)
      \/ (model_cache s !! name = None
          /\ model_cache s' = <[name := h]> (model_cache s)
          /\ current_model_name s' = Some name
          /\ disk s' = disk s
          /\ load_count (trace s') = S (load_count (trace s))
          /\ (clock s <= wm_id h < clock s')
          /\ exists evs, trace s' = trace s ++ evs)
  | (inl e, _, s') =>
      model_cache s !! name = None
      /\ model_cache s' = model_cache s
      /\ current_model_name s' = current_model_name s
      /\ disk s' = disk s
      /\ load_count (trace s') <= S (load_count (trace s))
      /\ exists evs, trace s' = trace s ++ evs
  end.
Proof.
  intros name. unfold get_model, resolve_device, WhisperModel_new.
  fold name. unfold_monad. cbn.
  case_steps; subst; rewrite ?load_count_app; cbn.
  all: try (left; split; reflexivity).
  all: try right; repeat split; auto; try lia.
  all: first [ exists []; symmetry; apply app_nil_r | eexists; reflexivity ].
Qed.

End GetModel.

(** ** The handlers *)

#[local] Arguments get_model : simpl never.
#[local] Arguments temp_name : simpl never.
#[local] Arguments json_compliant : simpl never.

Lemma temp_name_not_empty (dir random suffix : string) :
  String.eqb (temp_name dir random suffix) "" = false.
Proof.
  unfold temp_name. destruct dir; reflexivity.
Qed.

Ltac case_get_model :=
  match goal with
  | |- context [get_model ?c ?w ?m tt ?s] =>
      let H := fresh "Hgm" in
      pose proof (get_model_spec c w m s) as H; cbv zeta in H;
      destruct (get_model c w m tt s) as [[[?|?] ?] ?]
  end.

Ltac unfold_handlers :=
  unfold transcribe, transcribe_body, transcribe_base64, transcribe_base64_body,
    transcribe_begin, transcribe_resume,
    startup_event, cleanup, with_file, NamedTemporaryFile, write, close, read,
    unlink, model_transcribe, list_of, strip_preamble, JSONResponse_new in *.

(** Run a handler symbolically, one case per way the world can answer. *)
Ltac run_handler :=
  unfold_handlers; unfold_monad; cbn;
  repeat first [ rewrite temp_name_not_empty; cbn in *
               | case_get_model; cbn in *
               | case_step; cbn in * ].

Ltac invariant_from_get_model :=
  unfold current_model_cached in *; cbn in *;
  try assumption;
  match goal with
  | Hgm : _ /\ _ |- _ =>
      let Hc := fresh in let Hn := fresh in
      destruct Hgm as (_ & Hc & Hn & _); rewrite Hn, Hc; assumption
  | Hgm : _ \/ _ |- _ =>
      let Hc := fresh in let Hn := fresh in
      destruct Hgm as [[_ ->]|(_ & Hc & Hn & _)];
      [assumption | rewrite Hn, Hc, lookup_insert_eq; eauto]
  end.

Ltac assigned_by_load :=
  cbn in *;
  first
    [ solve [left; split; reflexivity]
    | match goal with
      | Hgm : _ \/ _ |- _ =>
          let Hmiss := fresh "Hmiss" in
          let Hc := fresh "Hc" in
          let Hn := fresh "Hn" in
          let Hld := fresh "Hld" in
          destruct Hgm as [[_ ->]|(Hmiss & Hc & Hn & _ & Hld & _)]; cbn;
          [ left; split; reflexivity
          | right; do 2 eexists;
            split; [exact Hmiss|]; split; [exact Hc|]; split; [exact Hn|];
            rewrite ?load_count_app in *; cbn in *; lia ]
      | Hgm : _ /\ _ |- _ =>
          let Hc := fresh "Hc" in
          let Hn := fresh "Hn" in
          destruct Hgm as (_ & Hc & Hn & _); left; split; assumption
      end ].

Section Invariant.

Variable cfg : Config.
Variable W : World.

Lemma get_model_keeps_invariant (model_name : string) (s : state) :
  current_model_cached s ->
  current_model_cached (snd (run (get_model cfg W model_name) tt s)).
Proof.
  intros Hinv. unfold run.
  pose proof (get_model_spec cfg W model_name s) as Hgm. cbv zeta in Hgm.
  destruct (get_model cfg W model_name tt s) as [[[e|h] l] s'];
    invariant_from_get_model.
Qed.

Lemma startup_keeps_invariant (s : state) :
  current_model_cached s ->
  current_model_cached (snd (run (startup_event cfg W) tt s)).
Proof. intros Hinv. run_handler; invariant_from_get_model. Qed.

Lemma transcribe_keeps_invariant audio model language task (s : state) :
  current_model_cached s ->
  current_model_cached (snd (transcribe cfg W audio model language task s)).
Proof. intros Hinv. run_handler; invariant_from_get_model. Qed.

Lemma transcribe_base64_keeps_invariant request (s : state) :
  current_model_cached s ->
  current_model_cached (snd (transcribe_base64 cfg W request s)).
Proof. intros Hinv. run_handler; invariant_from_get_model. Qed.

Lemma transcribe_begin_keeps_invariant audio (s : state) :
  current_model_cached s ->
  current_model_cached (snd (run (transcribe_begin W audio) None s)).
Proof. intros Hinv. run_handler; invariant_from_get_model. Qed.

Lemma transcribe_resume_keeps_invariant audio model language task tmp_file
    (s : state) :
  current_model_cached s ->
  current_model_cached
    (snd (run (transcribe_resume cfg W audio model language task tmp_file)
            None s)).
Proof. intros Hinv. run_handler; invariant_from_get_model. Qed.

(** The two turns, run without anything in between, are the handler. *)
Lemma transcribe_in_two_turns audio model language task (s : state) :
  transcribe cfg W audio model language task s
  = match run (transcribe_begin W audio) None s with
    | (inl e, s') => (inl e, s')
    | (inr tmp_file, s') =>
        run (transcribe_resume cfg W audio model language task tmp_file)
          None s'
    end.
Proof.
  unfold transcribe, transcribe_body, transcribe_begin, transcribe_resume.
  destruct (negb (Py.truthy (filename audio))); [reflexivity|].
  cbv zeta. unfold NamedTemporaryFile, cleanup. unfold_monad. cbn.
  destruct (NamedTemporaryFile_random W (clock s)); [reflexivity|]. cbn.
  destruct (disk s !! _); reflexivity.
Qed.

Lemma step_keeps_invariant (o : op) (s : state) :
  current_model_cached s -> current_model_cached (step cfg W o s).
Proof.
  destruct o; cbn [step]; auto using get_model_keeps_invariant,
    startup_keeps_invariant, transcribe_keeps_invariant,
    transcribe_base64_keeps_invariant, transcribe_begin_keeps_invariant,
    transcribe_resume_keeps_invariant.
Qed.

Lemma steps_keep_invariant (ops : list op) (s : state) :
  current_model_cached s -> current_model_cached (steps cfg W ops s).
Proof.
  revert s. induction ops as [|o ops IH]; intros s Hinv; [exact Hinv|].
  cbn. apply IH, step_keeps_invariant, Hinv.
Qed.

(** [current_model_name] moves only when a load has just succeeded: the
    name was not cached, the load put it into the cache, and the engine
    constructor was invoked once more. *)
Lemma get_model_assigns_after_load (model_name : string) (s : state) :
  match get_model cfg W model_name tt s with
  | (r, _, s') =>
      (current_model_name s' = current_model_name s
       /\ model_cache s' = model_cache s)
      \/ exists h,
           r = inr h
           /\ model_cache s !! normalize_model_name cfg model_name = None
           /\ model_cache s'
              = <[normalize_model_name cfg model_name := h]> (model_cache s)
           /\ current_model_name s' = Some (normalize_model_name cfg model_name)
           /\ load_count (trace s') = S (load_count (trace s))
  end.
Proof.
  pose proof (get_model_spec cfg W model_name s) as Hgm. cbv zeta in Hgm.
  destruct (get_model cfg W model_name tt s) as [[[e|h] l] s'].
  - left. tauto.
  - destruct Hgm as [[_ ->]|(Hmiss & Hc & Hn & _ & Hld & _)]; [left; auto|].
    right. exists h. auto.
Qed.

(** The same of every operation of the server: nothing but a successful
    load assigns [current_model_name]. *)
Lemma step_assigns_after_load (o : op) (s : state) :
  (current_model_name (step cfg W o s) = current_model_name s
   /\ model_cache (step cfg W o s) = model_cache s)
  \/ exists name h,
       model_cache s !! name = None
       /\ model_cache (step cfg W o s) = <[name := h]> (model_cache s)
       /\ current_model_name (step cfg W o s) = Some name
       /\ load_count (trace (step cfg W o s)) = S (load_count (trace s)).
Proof.
  destruct o; cbn [step].
  - run_handler; assigned_by_load.
  - left; split; reflexivity.
  - left; split; reflexivity.
  - unfold run.
    pose proof (get_model_spec cfg W model_name s) as Hgm. cbv zeta in Hgm.
    destruct (get_model cfg W model_name tt s) as [[[e|h] l] s']; assigned_by_load.
  - run_handler; assigned_by_load.
  - run_handler; assigned_by_load.
  - run_handler; assigned_by_load.
  - run_handler; assigned_by_load.
Qed.

(** C10. [current_model_name] is [None] or a key of [model_cache]: this
    holds when the module is loaded, every operation of the server
    preserves it (a turn of a suspended [/transcribe] included), so it
    holds after any sequence of operations, however the requests
    interleave.
    The name is assigned only after a successful load: a call of
    [get_model] leaves the name and the cache as they were (on a cache
    hit, and when the load fails), or it returns an instance for a name
    that was not cached, has put that instance into the cache under
    that name, has set [current_model_name] to it and has invoked the
    engine constructor once more; and every operation of the server
    leaves the name and the cache as they were or has done exactly
    that.
    Whenever the invariant holds, a true [model_loaded] in the answer
    of [/health] comes with a [current_model] that is cached. *)
Theorem current_model_name_is_cached :
  current_model_cached initial_state
  /\ (forall (o : op) (s : state),
        current_model_cached s -> current_model_cached (step cfg W o s))
  /\ (forall ops : list op,
        current_model_cached (steps cfg W ops initial_state))
  /\ (forall (model_name : string) (s : state),
        match get_model cfg W model_name tt s with
        | (r, _, s') =>
            (current_model_name s' = current_model_name s
             /\ model_cache s' = model_cache s)
            \/ exists h,
                 r = inr h
                 /\ model_cache s !! normalize_model_name cfg model_name = None
                 /\ model_cache s'
                    = <[normalize_model_name cfg model_name := h]>
                        (model_cache s)
                 /\ current_model_name s'
                    = Some (normalize_model_name cfg model_name)
                 /\ load_count (trace s') = S (load_count (trace s))
        end)
  /\ (forall (o : op) (s : state),
        (current_model_name (step cfg W o s) = current_model_name s
         /\ model_cache (step cfg W o s) = model_cache s)
        \/ exists name h,
             model_cache s !! name = None
             /\ model_cache (step cfg W o s) = <[name := h]> (model_cache s)
             /\ current_model_name (step cfg W o s) = Some name
             /\ load_count (trace (step cfg W o s))
                = S (load_count (trace s)))
  /\ (forall s : state,
        current_model_cached s ->
        h_model_loaded (health s) = true ->
        exists name,
          h_current_model (health s) = Some name
          /\ name ∈ dom (model_cache s)).
Proof.
  split; [exact I|].
  split; [exact step_keeps_invariant|].
  split; [intros ops; apply steps_keep_invariant; exact I|].
  split; [exact get_model_assigns_after_load|].
  split; [exact step_assigns_after_load|].
  intros s Hinv Hloaded. unfold health, current_model_cached in *. cbn in *.
  destruct (current_model_name s) as [name|]; [|discriminate].
  exists name. split; [reflexivity|]. apply elem_of_dom, Hinv.
Qed.

End Invariant.

(** ** The model cache *)

Section ModelCache.

Variable cfg : Config.
Variable W : World.




(** The outcome of a miss, step by step. *)
Lemma get_model_miss (model_name : string) (s : state) :
  model_cache s !! normalize_model_name cfg model_name = None ->
  get_model cfg W model_name tt s
  = (let name := normalize_model_name cfg model_name in
     match resolve_device cfg W tt s with
     | (inl e, l, s1) => (inl e, l, s1)
     | (inr device, l, s1) =>
         let compute_type := resolve_compute_type cfg device in
         let s2 := add_event
                     (EvLoad name device compute_type (MODELS_DIR cfg))
                     (set_clock (S (clock s1)) s1) in
         match WhisperModel_init W (clock s1) name device compute_type
                 (MODELS_DIR cfg) with
         | Some e => (inl e, l, s2)
         | None =>
             let model := mkWhisperModel name device compute_type
                            (MODELS_DIR cfg) (clock s1) in
             (inr model, l,
              set_current_model_name (Some name)
                (set_model_cache (<[name := model]> (model_cache s2)) s2))
         end
     end).
Proof.
  intros Hmiss. unfold get_model, WhisperModel_new. unfold_monad.
  rewrite Hmiss. cbv zeta.
  destruct (resolve_device cfg W tt s) as [[[e|device] l] s1]; [reflexivity|].
  cbn. destruct (WhisperModel_init W (clock s1) _ _ _ _); reflexivity.
Qed.

Lemma resolve_device_globals {L} (l : L) (s : state) :
  let '(_, l', s') := resolve_device cfg W l s in
  l' = l /\ model_cache s' = model_cache s
  /\ current_model_name s' = current_model_name s
  /\ disk s' = disk s /\ trace s' = trace s.
Proof.
  unfold resolve_device. unfold_monad.
  case_steps; auto.
Qed.


(** A call that finds its identifier uncached runs a load. *)
Lemma get_model_miss_runs_a_load (model_name : string) (s : state) r l s' :
  model_cache s !! normalize_model_name cfg model_name = None ->
  get_model cfg W model_name tt s = (r, l, s') ->
  runs_a_load cfg W (normalize_model_name cfg model_name) s r s'.
Proof.
  intros Hmiss Hcall. rewrite (get_model_miss _ _ Hmiss) in Hcall.
  cbv zeta in Hcall. unfold runs_a_load.
  pose proof (resolve_device_globals tt s) as Hglob.
  destruct (resolve_device cfg W tt s) as [[[e|device] l0] s0].
  - injection Hcall as <- <- <-. auto.
  - destruct Hglob as (_ & Hc & _ & _ & Htr). cbv zeta.
    destruct (WhisperModel_init W (clock s0) _ _ _ _);
      injection Hcall as <- <- <-; cbn; rewrite Htr, ?Hc; auto.
Qed.

Lemma two_calls_same_identifier (model_name : string) (s : state) :
  let name := normalize_model_name cfg model_name in
  model_cache s !! name = None ->
  let '(r1, _, s1) := get_model cfg W model_name tt s in
  let '(r2, _, s2) := get_model cfg W model_name tt s1 in
  runs_a_load cfg W name s r1 s1
  /\ match r1 with
     | inr h =>
         r2 = inr h /\ s2 = s1
         /\ load_count (trace s2) = S (load_count (trace s))
     | inl _ =>
         model_cache s1 !! name = None
         /\ runs_a_load cfg W name s1 r2 s2
     end.
Proof.
  intros name Hmiss.
  pose proof (get_model_spec cfg W model_name s) as Hspec.
  cbv zeta in Hspec. fold name in Hspec.
  destruct (get_model cfg W model_name tt s) as [[r1 l1] s1] eqn:Hfirst.
  pose proof (get_model_miss_runs_a_load _ _ _ _ _ Hmiss Hfirst) as Hload1.
  destruct r1 as [e|h].
  - destruct Hspec as (_ & Hc & _).
    assert (Hmiss1 : model_cache s1 !! name = None) by (rewrite Hc; exact Hmiss).
    destruct (get_model cfg W model_name tt s1) as [[r2 l2] s2] eqn:Hsecond.
    split; [exact Hload1|]. split; [exact Hmiss1|].
    exact (get_model_miss_runs_a_load _ _ _ _ _ Hmiss1 Hsecond).
  - destruct Hspec as [[Hhit _]|(_ & Hc & _ & _ & Hload & _)];
      [rewrite Hmiss in Hhit; discriminate|].
    assert (Hcached : model_cache s1 !! name = Some h)
      by (rewrite Hc; apply lookup_insert_eq).
    rewrite (get_model_hit cfg W model_name s1 h Hcached).
    auto.
Qed.

Lemma two_calls_different_identifiers (a b : string) (s : state) :
  normalize_model_name cfg a <> normalize_model_name cfg b ->
  model_cache s !! normalize_model_name cfg a = None ->
  model_cache s !! normalize_model_name cfg b = None ->
  let '(r1, _, s1) := get_model cfg W a tt s in
  let '(r2, _, s2) := get_model cfg W b tt s1 in
  runs_a_load cfg W (normalize_model_name cfg a) s r1 s1
  /\ runs_a_load cfg W (normalize_model_name cfg b) s1 r2 s2
  /\ (forall h1 h2, r1 = inr h1 -> r2 = inr h2 -> wm_id h1 < wm_id h2).
Proof.
  intros Hne Hma Hmb.
  pose proof (get_model_spec cfg W a s) as Hsa. cbv zeta in Hsa.
  destruct (get_model cfg W a tt s) as [[r1 l1] s1] eqn:Hfirst.
  assert (Hmb1 : model_cache s1 !! normalize_model_name cfg b = None).
  { destruct r1 as [e|h].
    - destruct Hsa as (_ & -> & _). exact Hmb.
    - destruct Hsa as [[_ ->]|(_ & -> & _)]; [exact Hmb|].
      rewrite lookup_insert_ne by exact Hne. exact Hmb. }
  pose proof (get_model_spec cfg W b s1) as Hsb. cbv zeta in Hsb.
  destruct (get_model cfg W b tt s1) as [[r2 l2] s2] eqn:Hsecond.
  split; [exact (get_model_miss_runs_a_load _ _ _ _ _ Hma Hfirst)|].
  split; [exact (get_model_miss_runs_a_load _ _ _ _ _ Hmb1 Hsecond)|].
  intros h1 h2 -> ->.
  destruct Hsa as [[Hhit _]|(_ & _ & _ & _ & _ & Hid1 & _)];
    [rewrite Hma in Hhit; discriminate|].
  destruct Hsb as [[Hhit _]|(_ & _ & _ & _ & _ & Hid2 & _)];
    [rewrite Hmb1 in Hhit; discriminate|].
  lia.
Qed.

(** C1, as the code has it.  [get_model] has no lock and no suspension
    point, so one call returns before the next starts; the claim is about
    two calls in a row.

    With the same identifier, not cached: the first call runs a load of
    its own ([runs_a_load]: the device is resolved and, unless the probe
    raises, the engine constructor is invoked once, and the outcome of
    the call is the outcome of that invocation).  When it returns an
    instance, the second call returns that same instance, leaves the
    state alone and the constructor has been invoked once.  When it
    raises, the identifier is still not cached and the second call runs
    a load of its own, from the state the first left: the failure is
    not shared.

    With two different identifiers, neither cached: each call runs its
    own load, the second from the state the first left, and when both
    return an instance the constructor was invoked for the second after
    it was for the first: the loads follow each other, they do not
    overlap. *)
Theorem get_model_twice :
  (forall (model_name : string) (s : state),
     let name := normalize_model_name cfg model_name in
     model_cache s !! name = None ->
     let '(r1, _, s1) := get_model cfg W model_name tt s in
     let '(r2, _, s2) := get_model cfg W model_name tt s1 in
     runs_a_load cfg W name s r1 s1
     /\ match r1 with
        | inr h =>
            r2 = inr h /\ s2 = s1
            /\ load_count (trace s2) = S (load_count (trace s))
        | inl _ =>
            model_cache s1 !! name = None
            /\ runs_a_load cfg W name s1 r2 s2
        end)
  /\ (forall (a b : string) (s : state),
        normalize_model_name cfg a <> normalize_model_name cfg b ->
        model_cache s !! normalize_model_name cfg a = None ->
        model_cache s !! normalize_model_name cfg b = None ->
        let '(r1, _, s1) := get_model cfg W a tt s in
        let '(r2, _, s2) := get_model cfg W b tt s1 in
        runs_a_load cfg W (normalize_model_name cfg a) s r1 s1
        /\ runs_a_load cfg W (normalize_model_name cfg b) s1 r2 s2
        /\ (forall h1 h2, r1 = inr h1 -> r2 = inr h2 -> wm_id h1 < wm_id h2)).
Proof.
  split; [exact two_calls_same_identifier|exact two_calls_different_identifiers].
Qed.

(** C7, as the code has it.  A configured device is returned as it is,
    without a probe.  With ["auto"] the probe decides: a GPU gives
    ["cuda"], no GPU gives ["cpu"], an [ImportError] gives ["cpu"]; any
    other exception of the probe leaves the step as it was raised. *)
Theorem resolve_device_outcomes (s : state) :
  resolve_device cfg W tt s
  = if String.eqb (DEVICE cfg) "auto" then
      match torch_cuda_is_available W (clock s) with
      | inr true => (inr "cuda", tt, set_clock (S (clock s)) s)
      | inr false => (inr "cpu", tt, set_clock (S (clock s)) s)
      | inl (ImportError _) => (inr "cpu", tt, set_clock (S (clock s)) s)
      | inl (PyException cls msg) =>
          (inl (PyException cls msg), tt, set_clock (S (clock s)) s)
      end
    else (inr (DEVICE cfg), tt, s).
Proof.
  unfold resolve_device. unfold_monad.
  destruct (String.eqb (DEVICE cfg) "auto"); [|reflexivity].
  cbn. destruct (torch_cuda_is_available W (clock s)) as [[msg|cls msg]|[|]];
    reflexivity.
Qed.

End ModelCache.

(** ** Python strings *)

Lemma lstrip_spec (s : string) :
  exists l, s = l +:+ Py.lstrip s /\ Py.all_space l = true
            /\ Py.starts_with_space (Py.lstrip s) = false.
Proof.
  induction s as [|c s (l & Hs & Hl & Hstart)]; [exists ""; auto|].
  cbn [Py.lstrip]. destruct (Py.isspace c) eqn:Hc.
  - exists (String c l). repeat split.
    + change (String c s = String c (l +:+ Py.lstrip s)). congruence.
    + cbn. rewrite Hc. exact Hl.
    + exact Hstart.
  - exists "". repeat split. cbn. exact Hc.
Qed.

Lemma rstrip_spec (s : string) :
  exists r, s = Py.rstrip s +:+ r /\ Py.all_space r = true
            /\ Py.ends_with_space (Py.rstrip s) = false.
Proof.
  induction s as [|c s (r & Hs & Hr & Hend)]; [exists ""; auto|].
  cbn [Py.rstrip]. destruct (Py.rstrip s) as [|c' t] eqn:Ht.
  - change (s = r) in Hs. subst s. destruct (Py.isspace c) eqn:Hc.
    + exists (String c r). repeat split. cbn. rewrite Hc. exact Hr.
    + exists r. repeat split; [exact Hr|]. cbn. exact Hc.
  - exists r. repeat split; [|exact Hr|exact Hend].
    change (String c s = String c (String c' t +:+ r)). congruence.
Qed.

Lemma rstrip_keeps_start (s : string) :
  Py.starts_with_space s = false ->
  Py.starts_with_space (Py.rstrip s) = false.
Proof.
  destruct s as [|c s]; [reflexivity|]. cbn. intros Hc.
  destruct (Py.rstrip s); [rewrite Hc|]; cbn; auto.
Qed.

(** [s.strip()] is [s] without the whitespace at its two ends. *)
Lemma strip_spec (s : string) :
  Py.trimmed (Py.strip s)
  /\ exists l r, s = l +:+ Py.strip s +:+ r
                 /\ Py.all_space l = true /\ Py.all_space r = true.
Proof.
  unfold Py.strip, Py.trimmed.
  destruct (lstrip_spec s) as (l & Hs & Hl & Hstart).
  destruct (rstrip_spec (Py.lstrip s)) as (r & Hm & Hr & Hend).
  split; [split; [apply rstrip_keeps_start, Hstart | exact Hend]|].
  exists l, r. rewrite <- Hm. auto.
Qed.

Lemma split_nonempty (c : ascii) (s : string) : Py.split c s <> [].
Proof.
  induction s as [|x s IH]; cbn; [discriminate|].
  destruct (Ascii.eqb x c); [discriminate|].
  destruct (Py.split c s); discriminate.
Qed.

(** The first piece of a split. *)
Lemma split_head (rest : string) :
  exists ps, Py.split "," rest = until_comma rest :: ps.
Proof.
  induction rest as [|x rest (ps & IH)]; cbn; [eauto|].
  destruct (Ascii.eqb x ","); [eauto|]. rewrite IH. eauto.
Qed.

Lemma split_second (pre rest : string) :
  Py.contains "," pre = false ->
  Py.split "," (pre +:+ "," +:+ rest) !! 1 = Some (until_comma rest).
Proof.
  induction pre as [|x pre IH].
  - intros _. change (Py.split "," ("" +:+ "," +:+ rest))
      with ("" :: Py.split "," rest).
    destruct (split_head rest) as (ps & ->). reflexivity.
  - change (Py.contains "," (String x pre))
      with (if Ascii.eqb x "," then true else Py.contains "," pre).
    change (Py.split "," (String x pre +:+ "," +:+ rest))
      with (if Ascii.eqb x "," then "" :: Py.split "," (pre +:+ "," +:+ rest)
            else match Py.split "," (pre +:+ "," +:+ rest) with
                 | [] => [String x ""]
                 | p :: ps => String x p :: ps
                 end).
    destruct (Ascii.eqb x ","); [discriminate|]. intros Hpre.
    specialize (IH Hpre).
    destruct (Py.split "," (pre +:+ "," +:+ rest)) as [|p [|q ps]];
      [discriminate IH | discriminate IH | exact IH].
Qed.

Lemma until_comma_no_comma (rest : string) :
  Py.contains "," rest = false -> until_comma rest = rest.
Proof.
  induction rest as [|x rest IH]; cbn; [reflexivity|].
  destruct (Ascii.eqb x ","); [discriminate|]. intros H. rewrite IH; auto.
Qed.

(** A string with a comma is a comma-free part, the comma, and a rest. *)
Lemma contains_comma_split (s : string) :
  Py.contains "," s = true ->
  exists pre rest, s = pre +:+ "," +:+ rest /\ Py.contains "," pre = false.
Proof.
  induction s as [|x s IH]; cbn; [discriminate|].
  destruct (Ascii.eqb x ",") eqn:Hx.
  - intros _. apply Ascii.eqb_eq in Hx. subst x. exists "", s. auto.
  - intros Hs. destruct (IH Hs) as (pre & rest & -> & Hpre).
    exists (String x pre), rest. cbn. rewrite Hx. auto.
Qed.

(** The index [1] is never out of range on line 202. *)
Lemma strip_preamble_total (audio_data : string) :
  exists payload, strip_preamble audio_data = inr payload.
Proof.
  unfold strip_preamble. destruct (Py.contains "," audio_data) eqn:Hc; [|eauto].
  destruct (contains_comma_split _ Hc) as (pre & rest & -> & Hpre).
  rewrite (split_second _ _ Hpre). eauto.
Qed.

(** ** The transcription pipeline *)

Section Pipeline.

Variable cfg : Config.
Variable W : World.

Lemma truthy_false (o : option string) :
  o = None \/ o = Some "" -> Py.truthy o = false.
Proof. intros [->| ->]; reflexivity. Qed.

Lemma truthy_true (data : string) :
  data <> "" -> Py.truthy (Some data) = true.
Proof.
  intros Hne. cbn. destruct (String.eqb_spec data ""); [contradiction|reflexivity].
Qed.

(** C3, as the code has it.  [/transcribe] rejects an upload without a
    file name, [/transcribe-base64] a body whose [audio] is missing or
    the empty string: each raises its 400 before the [try], and the whole
    state is what it was, so no temporary file was created and the cache
    was neither read nor changed. *)
Theorem missing_audio_is_rejected_first :
  (forall audio model language task (s : state),
     filename audio = None \/ filename audio = Some "" ->
     transcribe cfg W audio model language task s
     = (inl (mkHTTPException 400 "No audio file provided"), s))
  /\ (forall (request : gmap string string) (s : state),
        request !! "audio" = None \/ request !! "audio" = Some "" ->
        transcribe_base64 cfg W request s
        = (inl (mkHTTPException 400 "No audio data provided"), s)).
Proof.
  split.
  - intros audio model language task s Hno.
    unfold transcribe, transcribe_body.
    rewrite (truthy_false _ Hno). reflexivity.
  - intros request s Hno.
    unfold transcribe_base64, transcribe_base64_body.
    rewrite (truthy_false _ Hno). reflexivity.
Qed.

(** C2, as the code has it.  What the handler decodes is [payload],
    not always the [audio] field: the field itself when it holds no
    comma, otherwise the second piece of the field split at commas
    (lines 201-202).  When [audio] is a non-empty string and
    [b64decode] rejects that payload with [e], [/transcribe-base64]
    raises [HTTPException(500, str(e))], the status of a server error;
    the state is what it was: no temporary file, no cache access. *)
Theorem undecodable_base64_is_a_500
    (request : gmap string string) (data payload : string) (e : exn)
    (s : state) :
  request !! "audio" = Some data ->
  data <> "" ->
  strip_preamble data = inr payload ->
  b64decode W payload = inl e ->
  (if Py.contains "," data
   then Py.split "," data !! 1 = Some payload
   else payload = data)
  /\ transcribe_base64 cfg W request s
     = (inl (mkHTTPException 500 (str_exn e)), s).
Proof.
  intros Haudio Hne Hpayload Hdecode. split.
  - unfold strip_preamble in Hpayload.
    destruct (Py.contains "," data).
    + destruct (Py.split "," data !! 1); congruence.
    + congruence.
  - unfold transcribe_base64, transcribe_base64_body.
    rewrite Haudio, (truthy_true _ Hne). cbn [negb default from_option id].
    unfold id. rewrite Hpayload. unfold_handlers. unfold_monad. cbn.
    rewrite Hdecode. reflexivity.
Qed.

(** C4, as the code has it.  A payload with a comma is cut at its
    first comma and, of what follows, the part up to the next comma is
    decoded (all of it when there is no further comma); a payload
    without a comma is decoded as it is.  The decoded bytes are what
    the handler writes to the temporary file. *)
Theorem preamble_is_stripped_up_to_next_comma :
  (forall pre rest : string,
     Py.contains "," pre = false ->
     strip_preamble (pre +:+ "," +:+ rest) = inr (until_comma rest))
  /\ (forall rest : string,
        Py.contains "," rest = false -> until_comma rest = rest)
  /\ (forall data : string,
        Py.contains "," data = false -> strip_preamble data = inr data)
  /\ (forall (request : gmap string string)
             (data payload random name : string)
             (audio_bytes : bytes) (s : state),
        request !! "audio" = Some data ->
        data <> "" ->
        strip_preamble data = inr payload ->
        b64decode W payload = inr audio_bytes ->
        NamedTemporaryFile_random W (clock s) = inr random ->
        name = temp_name (gettempdir W) random
                 ("." +:+ default "webm" (request !! "format")) ->
        disk s !! name = None ->
        tmp_file_write W (S (clock s)) = None ->
        exists later,
          trace (snd (transcribe_base64 cfg W request s))
          = trace s ++ EvCreate name :: EvWriteFile name audio_bytes :: later).
Proof.
  split; [|split; [exact until_comma_no_comma|split]].
  - intros pre rest Hpre. unfold strip_preamble.
    assert (Hc : Py.contains "," (pre +:+ "," +:+ rest) = true).
    { clear -pre. induction pre as [|x pre IH]; [reflexivity|].
      change (Py.contains "," (String x pre +:+ "," +:+ rest))
        with (if Ascii.eqb x "," then true
              else Py.contains "," (pre +:+ "," +:+ rest)).
      destruct (Ascii.eqb x ","); [reflexivity|exact IH]. }
    rewrite Hc, (split_second _ _ Hpre). reflexivity.
  - intros data Hc. unfold strip_preamble. rewrite Hc. reflexivity.
  - intros request data payload random name audio_bytes s
      Haudio Hne Hpayload Hdecode Hrandom Hname Hfree Hwrite.
    unfold transcribe_base64, transcribe_base64_body. cbv zeta.
    set (suffix := "." +:+ default "webm" (request !! "format")) in *.
    rewrite Haudio, (truthy_true _ Hne). cbn [negb default from_option id].
    unfold id. rewrite Hpayload.
    unfold_handlers. unfold_monad. cbn.
    subst name.
    rewrite Hdecode. cbn. rewrite Hrandom. cbn. rewrite Hfree. cbn.
    rewrite Hwrite. cbn.
    repeat first [ rewrite temp_name_not_empty; cbn in *
                 | case_get_model; cbn in *
                 | case_step; cbn in * ].
    all: try (destruct Hgm as [[_ ->]|Hgm]); cbn.
    all: repeat match goal with H : _ /\ _ |- _ => destruct H as [_ H] end.
    all: try match goal with H : exists _, trace _ = _ |- _ =>
               let evs := fresh "evs" in destruct H as [evs ->] end.
    all: cbn; rewrite <- ?app_assoc; cbn; eexists; reflexivity.
Qed.

Lemma transcribe_success audio model language task (s s' : state) resp :
  transcribe cfg W audio model language task s = (inr resp, s') ->
  exists segments_list info t whisper_model tmp_path data,
    WhisperModel_transcribe W t whisper_model tmp_path data
      language task true vad_parameters
    = inr (mkSegmentStream segments_list None, info)
    /\ resp = TranscribeContent (full_text_of segments_list)
                (info_language info) (info_language_probability info)
                (info_duration info) (map segment_dict segments_list).
Proof.
  run_handler; intros Heq; try discriminate.
  all: injection Heq as <- <-.
  all: match goal with
       | Hs : fault ?st = None |- _ =>
           destruct st as [segments_list ?]; cbn in Hs; subst
       end.
  all: cbn; eauto 10.
Qed.

Lemma transcribe_base64_success (request : gmap string string)
    (s s' : state) resp :
  transcribe_base64 cfg W request s = (inr resp, s') ->
  exists segments_list info t whisper_model tmp_path data,
    WhisperModel_transcribe W t whisper_model tmp_path data
      (request !! "language") "transcribe" true vad_parameters
    = inr (mkSegmentStream segments_list None, info)
    /\ resp = Base64Content (full_text_of segments_list)
                (info_language info) (info_language_probability info)
                (info_duration info).
Proof.
  run_handler; intros Heq; try discriminate.
  all: injection Heq as <- <-.
  all: match goal with
       | Hs : fault ?st = None |- _ =>
           destruct st as [segments_list ?]; cbn in Hs; subst
       end.
  all: cbn; eauto 10.
Qed.

(** C9. Every response of [/transcribe] and of [/transcribe-base64] is
    built from a segment list the engine produced in full: its [text]
    is the segment texts, each stripped, joined with one space in the
    order of the list; the [segments] of [/transcribe] are those
    segments in that order, each [text] stripped; so [text] is the
    [segments]' texts joined.  A stripped text has no whitespace at
    either end and is the original without its leading and trailing
    whitespace. *)
Theorem full_text_joins_stripped_segments :
  (forall audio model language task (s s' : state) resp,
     transcribe cfg W audio model language task s = (inr resp, s') ->
     exists segments_list info t whisper_model tmp_path data,
       WhisperModel_transcribe W t whisper_model tmp_path data
         language task true vad_parameters
       = inr (mkSegmentStream segments_list None, info)
       /\ resp = TranscribeContent
                   (Py.join " " (map (fun seg => Py.strip (seg_text seg))
                                   segments_list))
                   (info_language info) (info_language_probability info)
                   (info_duration info)
                   (map (fun seg => mkSegmentDict (seg_start seg) (seg_end seg)
                                      (Py.strip (seg_text seg))
                                      (seg_avg_logprob seg))
                      segments_list)
       /\ Py.join " " (map (fun seg => Py.strip (seg_text seg)) segments_list)
          = Py.join " " (map sd_text (map segment_dict segments_list)))
  /\ (forall (request : gmap string string) (s s' : state) resp,
        transcribe_base64 cfg W request s = (inr resp, s') ->
        exists segments_list info t whisper_model tmp_path data,
          WhisperModel_transcribe W t whisper_model tmp_path data
            (request !! "language") "transcribe" true vad_parameters
          = inr (mkSegmentStream segments_list None, info)
          /\ resp = Base64Content
                      (Py.join " " (map (fun seg => Py.strip (seg_text seg))
                                      segments_list))
                      (info_language info) (info_language_probability info)
                      (info_duration info))
  /\ (forall text : string,
        Py.trimmed (Py.strip text)
        /\ exists l r, text = l +:+ Py.strip text +:+ r
                       /\ Py.all_space l = true /\ Py.all_space r = true).
Proof.
  split; [|split; [|exact strip_spec]].
  - intros audio model language task s s' resp Hrun.
    destruct (transcribe_success _ _ _ _ _ _ _ Hrun)
      as (segments_list & info & t & wm & p & d & Hengine & ->).
    exists segments_list, info, t, wm, p, d.
    split; [exact Hengine|]. split; [reflexivity|].
    rewrite map_map. reflexivity.
  - intros request s s' resp Hrun.
    destruct (transcribe_base64_success _ _ _ _ Hrun)
      as (segments_list & info & t & wm & p & d & Hengine & ->).
    exists segments_list, info, t, wm, p, d. auto.
Qed.

Ltac disk_restored :=
  cbn in *;
  repeat match goal with
         | H : _ /\ _ |- _ => destruct H as [? H]
         end;
  repeat match goal with
         | H : disk _ = _ |- _ => rewrite H in *
         end;
  try match goal with
      | H : <[?k := _]> _ !! ?k = None |- _ =>
          rewrite lookup_insert_eq in H; discriminate H
      end;
  rewrite ?insert_insert_eq;
  first [ reflexivity | apply delete_insert_id; assumption ].

Ltac fault_found :=
  first [ solve [left; disk_restored]
        | solve [right; left; eauto]
        | solve [right; right; left; eauto]
        | solve [right; right; right; eauto] ].

(** What the [finally] block achieves: after [/transcribe] the files
    the handlers work on ([disk]) are what they were before, unless
    reading the upload, writing the file or removing it raised. *)
Lemma transcribe_restores_disk audio model language task (s : state) :
  disk (snd (transcribe cfg W audio model language task s)) = disk s
  \/ (exists t e, UploadFile_read W t = Some e)
  \/ (exists t e, tmp_file_write W t = Some e)
  \/ (exists t e, os_unlink W t = Some e).
Proof.
  run_handler.
  all: try (destruct Hgm as [[_ ->]|Hgm]).
  all: fault_found.
Qed.

(** The same for [/transcribe-base64], which reads no upload. *)
Lemma transcribe_base64_restores_disk (request : gmap string string)
    (s : state) :
  disk (snd (transcribe_base64 cfg W request s)) = disk s
  \/ (exists t e, UploadFile_read W t = Some e)
  \/ (exists t e, tmp_file_write W t = Some e)
  \/ (exists t e, os_unlink W t = Some e).
Proof.
  run_handler.
  all: try (destruct Hgm as [[_ ->]|Hgm]).
  all: fault_found.
Qed.

End Pipeline.

(** ** Runs of the model *)

Example b64decode_AAAA : Base64.b64decode "AAAA" = inr [x00; x00; x00].
Proof. reflexivity. Qed.

Example b64decode_TWFu : Base64.b64decode "TWFu" = inr [x4d; x61; x6e].
Proof. reflexivity. Qed.

Example b64decode_padded : Base64.b64decode "TWE=" = inr [x4d; x61].
Proof. reflexivity. Qed.

Example b64decode_short :
  Base64.b64decode "AA" = inl (PyException "binascii.Error" "Incorrect padding").
Proof. reflexivity. Qed.

Example b64decode_one :
  Base64.b64decode "A" = inl (PyException "binascii.Error"
    "Invalid base64-encoded string: number of data characters (1) cannot be 1 more than a multiple of 4").
Proof. vm_compute. reflexivity. Qed.

Example b64decode_skips_comma :
  Base64.b64decode "AAAA,TWFu" = inr [x00; x00; x00; x4d; x61; x6e].
Proof. reflexivity. Qed.

Example strip_example : Py.strip "  Hello world " = "Hello world".
Proof. reflexivity. Qed.

Example split_example : Py.split "," "a,b,,c" = ["a"; "b"; ""; "c"].
Proof. reflexivity. Qed.

Example join_example : Py.join " " ["a"; "b"; "c"] = "a b c".
Proof. reflexivity. Qed.

Example suffix_example :
  Sample.suffix_of_name "clip.mp3" = ".mp3"
  /\ Sample.suffix_of_name ".bashrc" = ""
  /\ Sample.suffix_of_name "clip." = ""
  /\ Sample.suffix_of_name "a.tar.gz" = ".gz".
Proof. repeat split. Qed.

(** A request that goes through: one file created, written, removed; one
    load; the text of the two segments. *)
Example transcribe_quiet :
  transcribe Sample.cfg_cpu Sample.quiet Sample.upload_wav "base" None
    "transcribe" initial_state
  = (inr (TranscribeContent "Hello world" "en" 0%N 0%N
            [mkSegmentDict 0%N 0%N "Hello" 0%N;
             mkSegmentDict 0%N 0%N "world" 0%N]),
     mkState
       {["base" := mkWhisperModel "base" "cpu" "int8" "/root/.cache/whisper" 4]}
       (Some "base") ∅ 7
       [EvCreate "/tmp/tmp0.wav";
        EvWriteFile "/tmp/tmp0.wav" [x52; x49];
        EvLoad "base" "cpu" "int8" "/root/.cache/whisper";
        EvTranscribe
          (mkWhisperModel "base" "cpu" "int8" "/root/.cache/whisper" 4)
          (Some "/tmp/tmp0.wav") None "transcribe" true
          (mkVadParameters 500 400);
        EvUnlink "/tmp/tmp0.wav"]).
Proof. vm_compute. reflexivity. Qed.

(** ** The claims on concrete inputs *)

(** C1 fails as stated.  Two requests for ["small"], not cached, while
    the first construction fails: the engine constructor is invoked
    twice, the first caller gets the failure and the second an instance,
    so the callers share neither a load nor an outcome. *)
Lemma failed_load_is_repeated_not_shared :
  fst (fst (get_model Sample.cfg_cpu (Sample.load_fails_before 1) "small" tt
              initial_state))
  = inl (PyException "RuntimeError" "download failed")
  /\ fst (fst (get_model Sample.cfg_cpu (Sample.load_fails_before 1) "small" tt
                 (snd (get_model Sample.cfg_cpu (Sample.load_fails_before 1)
                         "small" tt initial_state))))
     = inr (mkWhisperModel "small" "cpu" "int8" "/root/.cache/whisper" 1)
  /\ load_count
       (trace (snd (get_model Sample.cfg_cpu (Sample.load_fails_before 1)
                      "small" tt
                      (snd (get_model Sample.cfg_cpu
                              (Sample.load_fails_before 1) "small" tt
                              initial_state)))))
     = 2.
Proof. vm_compute. repeat split. Qed.

(** The statement on the first two requests for ["small"] in a world
    without faults, and on a request for ["small"] followed by one for
    ["base"]. *)
Lemma get_model_twice_witness :
  (model_cache initial_state !! normalize_model_name Sample.cfg_cpu "small" = None
   /\ (let '(r1, _, s1) :=
         get_model Sample.cfg_cpu Sample.quiet "small" tt initial_state in
       let '(r2, _, s2) := get_model Sample.cfg_cpu Sample.quiet "small" tt s1 in
       runs_a_load Sample.cfg_cpu Sample.quiet
         (normalize_model_name Sample.cfg_cpu "small") initial_state r1 s1
       /\ match r1 with
          | inr h =>
              r2 = inr h /\ s2 = s1
              /\ load_count (trace s2) = S (load_count (trace initial_state))
          | inl _ =>
              model_cache s1 !! normalize_model_name Sample.cfg_cpu "small" = None
              /\ runs_a_load Sample.cfg_cpu Sample.quiet
                   (normalize_model_name Sample.cfg_cpu "small") s1 r2 s2
          end))
  /\ (normalize_model_name Sample.cfg_cpu "small"
      <> normalize_model_name Sample.cfg_cpu "base"
      /\ model_cache initial_state !! normalize_model_name Sample.cfg_cpu "base" = None
      /\ (let '(r1, _, s1) :=
            get_model Sample.cfg_cpu Sample.quiet "small" tt initial_state in
          let '(r2, _, s2) := get_model Sample.cfg_cpu Sample.quiet "base" tt s1 in
          runs_a_load Sample.cfg_cpu Sample.quiet
            (normalize_model_name Sample.cfg_cpu "small") initial_state r1 s1
          /\ runs_a_load Sample.cfg_cpu Sample.quiet
               (normalize_model_name Sample.cfg_cpu "base") s1 r2 s2
          /\ (forall h1 h2, r1 = inr h1 -> r2 = inr h2 -> wm_id h1 < wm_id h2))).
Proof.
  split.
  - split; [reflexivity|].
    apply (proj1 (get_model_twice Sample.cfg_cpu Sample.quiet) "small" initial_state).
    reflexivity.
  - split; [discriminate|]. split; [reflexivity|].
    apply (proj2 (get_model_twice Sample.cfg_cpu Sample.quiet) "small" "base"
             initial_state).
    + discriminate.
    + reflexivity.
    + reflexivity.
Defined.

(** C2 fails as stated.  ["AA"] is not decodable; the answer is a 500,
    the status of a server error, not a client error. *)
Lemma undecodable_base64_answers_500 :
  transcribe_base64 Sample.cfg_cpu Sample.quiet {["audio" := "AA"]}
    initial_state
  = (inl (mkHTTPException 500 "Incorrect padding"), initial_state).
Proof. vm_compute. reflexivity. Qed.

(** The statement on the payload ["AA"]. *)
Lemma undecodable_base64_is_a_500_witness :
  ({["audio" := "AA"]} : gmap string string) !! "audio" = Some "AA"
  /\ "AA" <> ""
  /\ strip_preamble "AA" = inr "AA"
  /\ b64decode Sample.quiet "AA"
     = inl (PyException "binascii.Error" "Incorrect padding")
  /\ (if Py.contains "," "AA"
      then Py.split "," "AA" !! 1 = Some "AA"
      else "AA" = "AA")
  /\ transcribe_base64 Sample.cfg_auto Sample.quiet {["audio" := "AA"]}
       initial_state
     = (inl (mkHTTPException 500
               (str_exn (PyException "binascii.Error" "Incorrect padding"))),
        initial_state).
Proof.
  split; [reflexivity|]. split; [discriminate|].
  split; [reflexivity|]. split; [reflexivity|].
  apply (undecodable_base64_is_a_500 Sample.cfg_auto Sample.quiet
           {["audio" := "AA"]} "AA" "AA"
           (PyException "binascii.Error" "Incorrect padding") initial_state);
    [reflexivity | discriminate | reflexivity | reflexivity].
Defined.

(** The field as a whole is not what is decoded.  [b64decode] rejects
    ["AA,AAAA"]; the handler decodes the piece ["AAAA"], creates a file
    and answers with a transcription. *)
Lemma field_with_comma_is_not_decoded_whole :
  b64decode Sample.quiet "AA,AAAA"
  = inl (PyException "binascii.Error" "Incorrect padding")
  /\ strip_preamble "AA,AAAA" = inr "AAAA"
  /\ b64decode Sample.quiet "AAAA" = inr [x00; x00; x00]
  /\ fst (transcribe_base64 Sample.cfg_cpu Sample.quiet
            {["audio" := "AA,AAAA"]} initial_state)
     = inr (Base64Content "Hello world" "en" 0%N 0%N)
  /\ created (trace (snd (transcribe_base64 Sample.cfg_cpu Sample.quiet
                            {["audio" := "AA,AAAA"]} initial_state)))
     = ["/tmp/tmp0.webm"].
Proof. vm_compute. repeat split; reflexivity. Qed.

(** C3 fails as stated.  An upload named [a.wav] with no content is not
    rejected: a temporary file is created, the model is loaded and cached,
    and the answer is the 500 of the engine's failure, not a 400. *)
Lemma named_empty_upload_is_processed :
  fst (transcribe Sample.cfg_cpu Sample.deaf Sample.empty_upload_wav "base"
         None "transcribe" initial_state)
  = inl (mkHTTPException 500 "Invalid data found when processing input")
  /\ created (trace (snd (transcribe Sample.cfg_cpu Sample.deaf
                            Sample.empty_upload_wav "base" None "transcribe"
                            initial_state)))
     = ["/tmp/tmp0.wav"]
  /\ model_cache (snd (transcribe Sample.cfg_cpu Sample.deaf
                         Sample.empty_upload_wav "base" None "transcribe"
                         initial_state))
     = {["base" := mkWhisperModel "base" "cpu" "int8" "/root/.cache/whisper" 4]}.
Proof. vm_compute. repeat split. Qed.

(** The statement on an upload with an empty file name and on a body
    without [audio]. *)
Lemma missing_audio_is_rejected_first_witness :
  transcribe Sample.cfg_auto Sample.quiet (mkUploadFile (Some "") [x52; x49])
    "base" None "transcribe" initial_state
  = (inl (mkHTTPException 400 "No audio file provided"), initial_state)
  /\ transcribe_base64 Sample.cfg_auto Sample.quiet {["model" := "base"]}
       initial_state
     = (inl (mkHTTPException 400 "No audio data provided"), initial_state).
Proof.
  split.
  - apply (proj1 (missing_audio_is_rejected_first Sample.cfg_auto Sample.quiet)).
    right. reflexivity.
  - apply (proj2 (missing_audio_is_rejected_first Sample.cfg_auto Sample.quiet)).
    left. reflexivity.
Defined.

(** C4 fails as stated.  With two commas in the payload, what is decoded
    and written is the part between them, three bytes, not the whole of
    what follows the first comma, which decodes to six. *)
Lemma second_comma_cuts_the_payload :
  strip_preamble "data:audio/webm;base64,AAAA,TWFu" = inr "AAAA"
  /\ trace (snd (transcribe_base64 Sample.cfg_cpu Sample.quiet
                   {["audio" := "data:audio/webm;base64,AAAA,TWFu"]}
                   initial_state))
     = [EvCreate "/tmp/tmp0.webm";
        EvWriteFile "/tmp/tmp0.webm" [x00; x00; x00];
        EvLoad "base" "cpu" "int8" "/root/.cache/whisper";
        EvTranscribe
          (mkWhisperModel "base" "cpu" "int8" "/root/.cache/whisper" 3)
          (Some "/tmp/tmp0.webm") None "transcribe" true
          (mkVadParameters 500 400);
        EvUnlink "/tmp/tmp0.webm"]
  /\ b64decode Sample.quiet "AAAA,TWFu" = inr [x00; x00; x00; x4d; x61; x6e].
Proof. vm_compute. repeat split. Qed.

(** The statement on a data URL with one comma. *)
Lemma preamble_is_stripped_witness :
  strip_preamble ("data:audio/webm;base64" +:+ "," +:+ "AAAA") = inr "AAAA"
  /\ exists later,
       trace (snd (transcribe_base64 Sample.cfg_cpu Sample.quiet
                     {["audio" := "data:audio/webm;base64,AAAA"]}
                     initial_state))
       = trace initial_state
         ++ EvCreate "/tmp/tmp0.webm"
            :: EvWriteFile "/tmp/tmp0.webm" [x00; x00; x00] :: later.
Proof.
  pose proof (preamble_is_stripped_up_to_next_comma Sample.cfg_cpu Sample.quiet)
    as (Hcut & _ & _ & Hwrite).
  split.
  - apply (Hcut "data:audio/webm;base64" "AAAA"). reflexivity.
  - apply (Hwrite {["audio" := "data:audio/webm;base64,AAAA"]}
             "data:audio/webm;base64,AAAA" "AAAA" "0" "/tmp/tmp0.webm"
             [x00; x00; x00] initial_state);
      [reflexivity | discriminate | reflexivity | reflexivity | reflexivity
      | reflexivity | reflexivity | reflexivity].
Defined.


(** C6: the code leaves the file behind when the write fails.  With a
    full disk, [/transcribe] and [/transcribe-base64] answer 500 and the
    temporary file each has created, still empty, is on disk after the
    call: [tmp_path] is assigned only after the write, so the [finally]
    block has nothing to remove. *)
Lemma temp_file_left_when_write_fails :
  transcribe Sample.cfg_cpu Sample.disk_full Sample.long_upload_wav "base" None
    "transcribe" initial_state
  = (inl (mkHTTPException 500 "[Errno 28] No space left on device"),
     mkState ∅ None {["/tmp/tmp0.wav" := []]} 4 [EvCreate "/tmp/tmp0.wav"])
  /\ transcribe_base64 Sample.cfg_cpu Sample.disk_full
       {["audio" := Sample.long_base64]} initial_state
     = (inl (mkHTTPException 500 "[Errno 28] No space left on device"),
        mkState ∅ None {["/tmp/tmp0.webm" := []]} 3
          [EvCreate "/tmp/tmp0.webm"]).
Proof. vm_compute. repeat split. Qed.

(** C7 fails as stated.  With [DEVICE] left to ["auto"], a probe that
    raises [OSError] (torch installed, a shared library missing) is not
    caught: the exception leaves the device resolution and [get_model],
    and the request ends in a 500. *)
Lemma probe_oserror_is_not_caught :
  resolve_device Sample.cfg_auto Sample.broken_torch tt initial_state
  = (inl (PyException "OSError"
            "libcudart.so.12: cannot open shared object file"),
     tt, set_clock 1 initial_state)
  /\ fst (fst (get_model Sample.cfg_auto Sample.broken_torch "base" tt
                 initial_state))
     = inl (PyException "OSError"
              "libcudart.so.12: cannot open shared object file")
  /\ fst (transcribe Sample.cfg_auto Sample.broken_torch Sample.upload_wav
            "base" None "transcribe" initial_state)
     = inl (mkHTTPException 500
              "libcudart.so.12: cannot open shared object file").
Proof. vm_compute. repeat split. Qed.


(** The statement on a request that yields the segments [" Hello"] and
    [" world  "]. *)
Lemma full_text_joins_stripped_segments_witness :
  exists segments_list info t whisper_model tmp_path data,
    WhisperModel_transcribe Sample.quiet t whisper_model tmp_path data
      None "transcribe" true vad_parameters
    = inr (mkSegmentStream segments_list None, info)
    /\ TranscribeContent "Hello world" "en" 0%N 0%N
         [mkSegmentDict 0%N 0%N "Hello" 0%N; mkSegmentDict 0%N 0%N "world" 0%N]
       = TranscribeContent
           (Py.join " " (map (fun seg => Py.strip (seg_text seg)) segments_list))
           (info_language info) (info_language_probability info)
           (info_duration info)
           (map (fun seg => mkSegmentDict (seg_start seg) (seg_end seg)
                              (Py.strip (seg_text seg)) (seg_avg_logprob seg))
              segments_list)
    /\ Py.join " " (map (fun seg => Py.strip (seg_text seg)) segments_list)
       = Py.join " " (map sd_text (map segment_dict segments_list)).
Proof.
  apply (proj1 (full_text_joins_stripped_segments Sample.cfg_cpu Sample.quiet)
           Sample.upload_wav "base" None "transcribe" initial_state
           (snd (transcribe Sample.cfg_cpu Sample.quiet Sample.upload_wav "base"
                   None "transcribe" initial_state))).
  vm_compute. reflexivity.
Defined.

(** The statement on a sequence of operations in which two requests
    interleave and the first loads fail. *)
Lemma current_model_name_is_cached_witness :
  current_model_cached
    (steps Sample.cfg_auto (Sample.load_fails_before 2)
       [OpStartup; OpHealth;
        OpTranscribeBegin Sample.upload_wav;
        OpTranscribe Sample.upload_wav "small" None "transcribe";
        OpTranscribeBase64 {["audio" := "AAAA"]}; OpListModels;
        OpTranscribeResume Sample.upload_wav "medium" None "transcribe"
          "/tmp/tmp2.wav";
        OpGetModel "tiny"]
       initial_state).
Proof.
  apply (proj1 (proj2 (proj2 (current_model_name_is_cached Sample.cfg_auto
                                (Sample.load_fails_before 2))))).
Defined.

(** * Further properties of the code *)

(** ** The cache over the life of the server *)

Lemma inference_count_app (tr1 tr2 : list event) :
  inference_count (tr1 ++ tr2) = inference_count tr1 + inference_count tr2.
Proof.
  induction tr1 as [|ev tr1 IH]; [reflexivity|].
  destruct ev; cbn; rewrite IH; reflexivity.
Qed.

Lemma unlinked_app (tr1 tr2 : list event) :
  unlinked (tr1 ++ tr2) = unlinked tr1 ++ unlinked tr2.
Proof.
  induction tr1 as [|ev tr1 IH]; [reflexivity|].
  destruct ev; cbn; rewrite IH; reflexivity.
Qed.

Ltac case_get_model_eq :=
  match goal with
  | |- context [get_model ?c ?w ?m tt ?s] =>
      let H := fresh "Hcall" in
      destruct (get_model c w m tt s) as [[[?|?] ?] ?] eqn:H
  end.

Ltac run_handler_eq :=
  unfold_handlers; unfold_monad; cbn;
  repeat first [ rewrite temp_name_not_empty; cbn in *
               | case_get_model_eq; cbn in *
               | case_step; cbn in * ].

Section CacheLife.

Variable cfg : Config.
Variable W : World.

Lemma normalize_is_loadable (model_name : string) :
  normalize_model_name cfg model_name ∈ loadable_names cfg.
Proof.
  unfold normalize_model_name, loadable_names.
  destruct (Py.in_list model_name AVAILABLE_MODELS) eqn:Hin; cbv [negb].
  - apply list_elem_of_further. unfold Py.in_list in Hin.
    apply existsb_exists in Hin as (x & Hx & Heq).
    apply String.eqb_eq in Heq. subst x. apply list_elem_of_In, Hx.
  - apply list_elem_of_here.
Qed.

(** What a miss that succeeds builds. *)
Lemma get_model_builds (model_name : string) (s s' : state) h l :
  model_cache s !! normalize_model_name cfg model_name = None ->
  get_model cfg W model_name tt s = (inr h, l, s') ->
  built_for cfg (normalize_model_name cfg model_name) h
  /\ exists s1,
       clock s <= clock s1
       /\ trace s'
          = trace s ++ [EvLoad (normalize_model_name cfg model_name)
                          (wm_device h) (wm_compute_type h) (MODELS_DIR cfg)]
       /\ wm_id h = clock s1
       /\ clock s' = S (clock s1).
Proof.
  intros Hmiss Hcall. rewrite (get_model_miss _ _ _ _ Hmiss) in Hcall.
  cbv zeta in Hcall. rewrite resolve_device_outcomes in Hcall.
  unfold built_for.
  destruct (String.eqb (DEVICE cfg) "auto") eqn:Hauto.
  - destruct (torch_cuda_is_available W (clock s)) as [[msg|cls msg]|[|]];
      try discriminate;
      destruct (WhisperModel_init W _ _ _ _ _); try discriminate;
      injection Hcall as <- <- <-; cbn;
      (split; [repeat split; auto using normalize_is_loadable|]);
      eexists (set_clock (S (clock s)) s); cbn; repeat split; auto.
  - destruct (WhisperModel_init W _ _ _ _ _); try discriminate.
    injection Hcall as <- <- <-. cbn.
    split; [repeat split; auto using normalize_is_loadable|].
    exists s. repeat split; auto.
Qed.

Ltac globals_found :=
  first [ solve [left; split; reflexivity]
        | solve [right; do 5 eexists;
                 split; [|split; [|split; [eassumption|split; reflexivity]]];
                 reflexivity] ].

(** No operation touches the two globals except through [get_model]. *)
Lemma step_globals (o : op) (s : state) :
  globals_by_get_model cfg W s (step cfg W o s).
Proof.
  unfold globals_by_get_model. destruct o; cbn [step].
  - run_handler_eq; globals_found.
  - left; split; reflexivity.
  - left; split; reflexivity.
  - unfold run. destruct (get_model cfg W model_name tt s) as [[r l] s2] eqn:Hcall.
    right. exists model_name, s, r, l, s2. cbn. auto.
  - run_handler_eq; globals_found.
  - run_handler_eq; globals_found.
  - run_handler_eq; globals_found.
  - run_handler_eq; globals_found.
Qed.

Lemma get_model_keeps_entries (model_name : string) (s s' : state) r l
    (name : string) (h : WhisperModel) :
  get_model cfg W model_name tt s = (r, l, s') ->
  model_cache s !! name = Some h -> model_cache s' !! name = Some h.
Proof.
  intros Hcall Hentry.
  pose proof (get_model_spec cfg W model_name s) as Hspec.
  cbv zeta in Hspec. rewrite Hcall in Hspec. destruct r as [e|h'].
  - destruct Hspec as (_ & -> & _). exact Hentry.
  - destruct Hspec as [[_ ->]|(Hmiss & -> & _)]; [exact Hentry|].
    rewrite lookup_insert_ne; [exact Hentry|].
    intros <-. rewrite Hmiss in Hentry. discriminate.
Qed.

Lemma step_keeps_entries (o : op) (s : state) (name : string)
    (h : WhisperModel) :
  model_cache s !! name = Some h ->
  model_cache (step cfg W o s) !! name = Some h.
Proof.
  intros Hentry.
  destruct (step_globals o s)
    as [[-> _]|(m & s1 & r & l & s2 & Hc & _ & Hcall & -> & _)];
    [exact Hentry|].
  apply (get_model_keeps_entries _ _ _ _ _ _ _ Hcall). rewrite Hc. exact Hentry.
Qed.

(** X1. Nothing is ever evicted or reloaded: an instance that is in the
    cache under some name is still there, the same instance under the
    same name, after any sequence of operations of the server. *)
Theorem cached_models_are_kept (ops : list op) (s : state) (name : string)
    (h : WhisperModel) :
  model_cache s !! name = Some h ->
  model_cache (steps cfg W ops s) !! name = Some h.
Proof.
  revert s. induction ops as [|o ops IH]; intros s Hentry; [exact Hentry|].
  cbn. apply IH, step_keeps_entries, Hentry.
Qed.

Lemma get_model_keeps_well_formed (model_name : string) (s s' : state) r l :
  get_model cfg W model_name tt s = (r, l, s') ->
  cache_well_formed cfg s -> cache_well_formed cfg s'.
Proof.
  intros Hcall Hwf.
  pose proof (get_model_spec cfg W model_name s) as Hspec.
  cbv zeta in Hspec. rewrite Hcall in Hspec. destruct r as [e|h'].
  - destruct Hspec as (_ & Hc & _). unfold cache_well_formed. rewrite Hc. exact Hwf.
  - destruct Hspec as [[_ ->]|(Hmiss & Hc & _)]; [exact Hwf|].
    intros name h. rewrite Hc.
    destruct (decide (normalize_model_name cfg model_name = name)) as [<-|Hne].
    + rewrite lookup_insert_eq. intros [= <-].
      apply (get_model_builds _ _ _ _ _ Hmiss Hcall).
    + rewrite lookup_insert_ne by exact Hne. apply Hwf.
Qed.

Lemma step_keeps_well_formed (o : op) (s : state) :
  cache_well_formed cfg s -> cache_well_formed cfg (step cfg W o s).
Proof.
  intros Hwf.
  destruct (step_globals o s)
    as [[Hc _]|(m & s1 & r & l & s2 & Hc & _ & Hcall & Hc' & _)].
  - unfold cache_well_formed. rewrite Hc. exact Hwf.
  - unfold cache_well_formed. rewrite Hc'.
    apply (get_model_keeps_well_formed _ _ _ _ _ Hcall).
    unfold cache_well_formed. rewrite Hc. exact Hwf.
Qed.

Lemma steps_keep_well_formed (ops : list op) (s : state) :
  cache_well_formed cfg s -> cache_well_formed cfg (steps cfg W ops s).
Proof.
  revert s. induction ops as [|o ops IH]; intros s Hwf; [exact Hwf|].
  cbn. apply IH, step_keeps_well_formed, Hwf.
Qed.

Lemma AVAILABLE_MODELS_NoDup : NoDup AVAILABLE_MODELS.
Proof. apply (bool_decide_unpack _). vm_compute. exact I. Qed.

Lemma well_formed_size (s : state) :
  cache_well_formed cfg s ->
  size (model_cache s) <= 11
  /\ (Py.in_list (DEFAULT_MODEL cfg) AVAILABLE_MODELS = true ->
      size (model_cache s) <= 10).
Proof.
  intros Hwf.
  assert (Hdom : dom (model_cache s) ⊆ list_to_set (loadable_names cfg)).
  { intros name [h Hh]%elem_of_dom. apply elem_of_list_to_set.
    apply (Hwf name h Hh). }
  destruct (Py.in_list (DEFAULT_MODEL cfg) AVAILABLE_MODELS) eqn:Hin.
  - assert (Hdefault : DEFAULT_MODEL cfg ∈ AVAILABLE_MODELS).
    { unfold Py.in_list in Hin.
      apply existsb_exists in Hin as (x & Hx & Heq).
      apply String.eqb_eq in Heq. subst x. apply list_elem_of_In, Hx. }
    assert (Hdom' : dom (model_cache s) ⊆ list_to_set AVAILABLE_MODELS).
    { intros name Hname. apply Hdom in Hname.
      apply elem_of_list_to_set in Hname. apply elem_of_list_to_set.
      unfold loadable_names in Hname.
      apply elem_of_cons in Hname as [->|Hname]; assumption. }
    apply subseteq_size in Hdom'.
    rewrite size_dom, (size_list_to_set _ AVAILABLE_MODELS_NoDup) in Hdom'.
    cbn in Hdom'. split; [lia|intros _; lia].
  - assert (Hnodup : NoDup (loadable_names cfg)).
    { unfold loadable_names. apply NoDup_cons. split; [|exact AVAILABLE_MODELS_NoDup].
      intros Hdefault. apply list_elem_of_In in Hdefault.
      assert (Py.in_list (DEFAULT_MODEL cfg) AVAILABLE_MODELS = true);
        [|congruence].
      unfold Py.in_list. apply existsb_exists.
      exists (DEFAULT_MODEL cfg). split; [exact Hdefault|apply String.eqb_refl]. }
    apply subseteq_size in Hdom.
    rewrite size_dom, (size_list_to_set _ Hnodup) in Hdom.
    cbn in Hdom. split; [lia|discriminate].
Qed.

(** X2. After any sequence of operations from the start of the server,
    every cached instance is filed under the name it was built for, a
    name of [AVAILABLE_MODELS] or [DEFAULT_MODEL]; it was built with the
    configured directory, on the configured device (on ["cuda"] or
    ["cpu"] under ["auto"]) and with the precision of that device.  So
    the cache never holds more than eleven models, and no more than ten
    when [DEFAULT_MODEL] is itself a supported name. *)
Theorem cache_holds_supported_models_only (ops : list op) :
  cache_well_formed cfg (steps cfg W ops initial_state)
  /\ size (model_cache (steps cfg W ops initial_state)) <= 11
  /\ (Py.in_list (DEFAULT_MODEL cfg) AVAILABLE_MODELS = true ->
      size (model_cache (steps cfg W ops initial_state)) <= 10).
Proof.
  assert (Hwf : cache_well_formed cfg (steps cfg W ops initial_state)).
  { apply steps_keep_well_formed. intros name h Hh.
    cbn in Hh. rewrite lookup_empty in Hh. discriminate. }
  split; [exact Hwf|]. apply well_formed_size, Hwf.
Qed.

Lemma get_model_keeps_current_iff_loaded (model_name : string) (s s' : state)
    r l :
  get_model cfg W model_name tt s = (r, l, s') ->
  current_iff_loaded s -> current_iff_loaded s'.
Proof.
  intros Hcall Hinv.
  pose proof (get_model_spec cfg W model_name s) as Hspec.
  cbv zeta in Hspec. rewrite Hcall in Hspec. destruct r as [e|h'].
  - destruct Hspec as (_ & Hc & Hn & _). unfold current_iff_loaded.
    rewrite Hc, Hn. exact Hinv.
  - destruct Hspec as [[_ ->]|(_ & Hc & Hn & _)]; [exact Hinv|].
    unfold current_iff_loaded. rewrite Hc, Hn. split; [discriminate|].
    intros Hempty. exfalso. exact (insert_non_empty _ _ _ Hempty).
Qed.

Lemma step_keeps_current_iff_loaded (o : op) (s : state) :
  current_iff_loaded s -> current_iff_loaded (step cfg W o s).
Proof.
  intros Hinv.
  destruct (step_globals o s)
    as [[Hc Hn]|(m & s1 & r & l & s2 & Hc & Hn & Hcall & Hc' & Hn')].
  - unfold current_iff_loaded. rewrite Hc, Hn. exact Hinv.
  - unfold current_iff_loaded. rewrite Hc', Hn'.
    apply (get_model_keeps_current_iff_loaded _ _ _ _ _ Hcall).
    unfold current_iff_loaded. rewrite Hc, Hn. exact Hinv.
Qed.

(** X3. After any sequence of operations from the start of the server,
    [current_model_name] is [None] exactly when the cache is empty; so
    [/health] answers [model_loaded = false] exactly when no model has
    been loaded yet. *)
Theorem model_loaded_iff_cache_not_empty (ops : list op) :
  current_iff_loaded (steps cfg W ops initial_state)
  /\ (h_model_loaded (health (steps cfg W ops initial_state)) = false
      <-> model_cache (steps cfg W ops initial_state) = ∅).
Proof.
  assert (Hinv : forall s, current_iff_loaded s ->
                           current_iff_loaded (steps cfg W ops s)).
  { induction ops as [|o ops' IH]; intros s Hs; [exact Hs|].
    cbn. apply IH, step_keeps_current_iff_loaded, Hs. }
  specialize (Hinv initial_state (conj (fun _ => eq_refl) (fun _ => eq_refl))).
  split; [exact Hinv|].
  unfold health, current_iff_loaded in *. cbn.
  destruct (current_model_name (steps cfg W ops initial_state)) as [name|].
  - split; [discriminate|]. intros Hempty. apply Hinv in Hempty. discriminate.
  - split; [intros _; apply Hinv; reflexivity|reflexivity].
Qed.


End CacheLife.

(** ** What one request does *)

Ltac unfold_handlers_keep_preamble :=
  unfold transcribe, transcribe_body, transcribe_base64, transcribe_base64_body,
    cleanup, with_file, NamedTemporaryFile, write, close, read,
    unlink, model_transcribe, list_of, JSONResponse_new in *.

Ltac case_get_model_with lemma :=
  match goal with
  | |- context [get_model ?c ?w ?m tt ?s] =>
      let H := fresh "Hgm" in
      pose proof (lemma c w m s) as H; cbv zeta in H;
      destruct (get_model c w m tt s) as [[[?|?] ?] ?]
  end.

Ltac run_handler_with lemma :=
  unfold_handlers_keep_preamble; unfold_monad; cbn;
  repeat first [ rewrite temp_name_not_empty; cbn in *
               | case_get_model_with lemma; cbn in *
               | case_step; cbn in * ].

Section CallEvents.

Variable cfg : Config.
Variable W : World.

(** The events of a call of [get_model]: nothing, or one invocation of
    the engine constructor. *)
Lemma get_model_events (model_name : string) (s : state) :
  match get_model cfg W model_name tt s with
  | (_, _, s') =>
      disk s' = disk s
      /\ exists evs,
           trace s' = trace s ++ evs
           /\ created evs = [] /\ unlinked evs = []
           /\ inference_count evs = 0 /\ load_count evs <= 1
  end.
Proof.
  unfold get_model, resolve_device, WhisperModel_new. unfold_monad. cbn.
  case_steps; subst; (split; [reflexivity|]).
  all: first [ exists []; rewrite app_nil_r; cbn; repeat split; auto; lia
             | eexists [_]; cbn; repeat split; auto; lia ].
Qed.

(** Everything a call of [get_model] does to the state. *)
Lemma get_model_effects (model_name : string) (s : state) :
  match get_model cfg W model_name tt s with
  | (r, _, s') =>
      disk s' = disk s
      /\ clock s <= clock s'
      /\ match r with
         | inr h =>
             model_cache s' !! normalize_model_name cfg model_name = Some h
         | inl _ => True
         end
      /\ exists evs,
           trace s' = trace s ++ evs
           /\ created evs = [] /\ unlinked evs = []
           /\ inference_count evs = 0 /\ load_count evs <= 1
  end.
Proof.
  unfold get_model, resolve_device, WhisperModel_new. unfold_monad. cbn.
  case_steps; subst; cbn; rewrite ?lookup_insert_eq;
    (split; [reflexivity|]); (split; [lia|]); (split; [auto|]).
  all: first [ exists []; rewrite app_nil_r; cbn; repeat split; auto; lia
             | eexists [_]; cbn; repeat split; auto; lia ].
Qed.

End CallEvents.

Section Requests.

Variable cfg : Config.
Variable W : World.

Ltac loaded_after_get_model Hinv :=
  match goal with
  | Hgm : _ \/ _ |- _ =>
      let Hhit := fresh "Hhit" in
      let Hn := fresh "Hn" in
      destruct Hgm as [[Hhit ->]|(_ & _ & Hn & _)]; cbn;
      [ match goal with
        | |- context [current_model_name ?st] =>
            let Hcur := fresh "Hcur" in
            destruct (current_model_name st) eqn:Hcur;
            [ reflexivity
            | apply (proj1 Hinv) in Hcur; rewrite Hcur, lookup_empty in Hhit;
              discriminate Hhit ]
        end
      | rewrite Hn; reflexivity ]
  end.

(** X4. From a state in which [current_model_name] is [None] only when
    nothing is cached, a request that is answered with a transcription
    leaves a state for which [/health] answers [model_loaded = true]. *)
Theorem successful_transcription_means_model_loaded (s : state) :
  current_iff_loaded s ->
  (forall audio model language task resp (s' : state),
     transcribe cfg W audio model language task s = (inr resp, s') ->
     h_model_loaded (health s') = true)
  /\ (forall (request : gmap string string) resp (s' : state),
        transcribe_base64 cfg W request s = (inr resp, s') ->
        h_model_loaded (health s') = true).
Proof.
  intros Hinv. split.
  - intros audio model language task.
    run_handler_with get_model_spec; intros resp s' Heq; try discriminate.
    all: injection Heq as <- <-; unfold health; cbn.
    all: loaded_after_get_model Hinv.
  - intros request.
    run_handler_with get_model_spec; intros resp s' Heq; try discriminate.
    all: injection Heq as <- <-; unfold health; cbn.
    all: loaded_after_get_model Hinv.
Qed.


Ltac untouched :=
  cbn in *;
  repeat match goal with
         | H : _ /\ _ |- _ => destruct H as [? H]
         end;
  repeat match goal with
         | H : disk _ = _ |- _ => rewrite H in *
         end;
  try match goal with
      | Hp : disk ?s !! ?p = Some _, Hfree : disk ?s !! ?n = None |- _ =>
          assert (p <> n) by (intros ->; rewrite Hfree in Hp; discriminate Hp);
          rewrite ?lookup_delete_ne, ?lookup_insert_ne by congruence
      end;
  assumption.

(** X7. A request never removes or overwrites a file that was on disk
    before it: whatever path holds whatever bytes before the call holds
    them after it, on every exit path. *)
Theorem files_on_disk_are_untouched (s : state) (p : string) (d : bytes) :
  disk s !! p = Some d ->
  (forall audio model language task,
     disk (snd (transcribe cfg W audio model language task s)) !! p = Some d)
  /\ (forall request : gmap string string,
        disk (snd (transcribe_base64 cfg W request s)) !! p = Some d).
Proof.
  intros Hp. split.
  - intros audio model language task.
    run_handler_with get_model_events.
    all: untouched.
  - intros request.
    run_handler_with get_model_events.
    all: untouched.
Qed.

Ltac inference_found :=
  match goal with
  | Hs : fault ?st = None |- _ =>
      destruct st as [segments_list ?]; cbn in Hs; subst
  end;
  repeat match goal with
         | H : _ /\ _ |- _ => destruct H as [? H]
         end;
  match goal with
  | H : exists evs, trace _ = _ /\ _ |- _ =>
      let evs := fresh "evs" in
      let Htr := fresh "Htr" in
      let Hcr := fresh "Hcr" in
      let Hun := fresh "Hun" in
      let Hinf := fresh "Hinf" in
      let Hld := fresh "Hld" in
      destruct H as (evs & Htr & Hcr & Hun & Hinf & Hld)
  end;
  repeat match goal with
         | H : disk _ = _ |- _ => rewrite H in *
         end;
  rewrite ?lookup_insert_eq in *;
  simplify_eq; cbn.

Ltac inference_rest s1 Hcall :=
  split; [reflexivity|];
  repeat (cbn; rewrite ?created_app, ?inference_count_app);
  repeat match goal with
         | H : created _ = [] |- _ => rewrite H
         | H : inference_count _ = 0 |- _ => rewrite H
         end;
  cbn;
  split; [reflexivity|];
  split; [assumption|];
  split; [set_solver|];
  split; [set_solver|];
  split; [reflexivity|];
  split; [assumption|];
  split; [exists (clock s1); split; [lia|exact Hcall]|reflexivity].

Ltac inference_shown :=
  match goal with
  | Htr : trace ?s1 = _, Hcall : WhisperModel_transcribe _ (clock ?s1) ?w _ _ _ _ _ _
                                 = inr (mkSegmentStream ?segs None, ?info) |- _ =>
      rewrite Htr; rewrite <- ?app_assoc;
      exists segs, info, w; do 2 eexists;
      inference_rest s1 Hcall
  end.

Ltac inference_shown_base64 :=
  match goal with
  | Htr : trace ?s1 = _, Hcall : WhisperModel_transcribe _ (clock ?s1) ?w _ _ _ _ _ _
                                 = inr (mkSegmentStream ?segs None, ?info),
    Hp : strip_preamble _ = inr ?p, Hd : b64decode _ ?p = inr ?b |- _ =>
      rewrite Htr; rewrite <- ?app_assoc;
      exists p, b, segs, info, w; do 2 eexists;
      split; [first [exact Hp|reflexivity]|]; split; [exact Hd|];
      inference_rest s1 Hcall
  end.

(** X8. A transcription that is returned comes from this run's one
    inference, on this run's one temporary file.  The events of the run
    show one file created, at a path that was free, the bytes of the
    request written to it (the upload's content for [/transcribe], the
    decoded payload for [/transcribe-base64]) and one call of the
    engine, on that file, by the cached instance of the requested
    model, with the request's language as it is, with [vad_filter=True]
    and the fixed parameters 500 and 400, with the request's task for
    [/transcribe] and always with ["transcribe"] for
    [/transcribe-base64].  That call was made during the run and
    returned the segments and the info the response is built from. *)
Theorem engine_is_given_the_request_audio :
  (forall audio model language task (s s' : state) resp,
     transcribe cfg W audio model language task s = (inr resp, s') ->
     exists segments_list info whisper_model name evs,
       trace s' = trace s ++ evs
       /\ created evs = [name]
       /\ disk s !! name = None
       /\ EvWriteFile name (content audio) ∈ evs
       /\ EvTranscribe whisper_model (Some name) language task true
            vad_parameters ∈ evs
       /\ inference_count evs = 1
       /\ model_cache s' !! normalize_model_name cfg model = Some whisper_model
       /\ (exists t,
             clock s <= t < clock s'
             /\ WhisperModel_transcribe W t whisper_model (Some name)
                  (Some (content audio)) language task true vad_parameters
                = inr (mkSegmentStream segments_list None, info))
       /\ resp = TranscribeContent (full_text_of segments_list)
                   (info_language info) (info_language_probability info)
                   (info_duration info) (map segment_dict segments_list))
  /\ (forall (request : gmap string string) (s s' : state) resp,
        transcribe_base64 cfg W request s = (inr resp, s') ->
        exists payload audio_bytes segments_list info whisper_model name evs,
          strip_preamble (default "" (request !! "audio")) = inr payload
          /\ b64decode W payload = inr audio_bytes
          /\ trace s' = trace s ++ evs
          /\ created evs = [name]
          /\ disk s !! name = None
          /\ EvWriteFile name audio_bytes ∈ evs
          /\ EvTranscribe whisper_model (Some name) (request !! "language")
               "transcribe" true vad_parameters ∈ evs
          /\ inference_count evs = 1
          /\ model_cache s'
             !! normalize_model_name cfg
                  (default (DEFAULT_MODEL cfg) (request !! "model"))
             = Some whisper_model
          /\ (exists t,
                clock s <= t < clock s'
                /\ WhisperModel_transcribe W t whisper_model (Some name)
                     (Some audio_bytes) (request !! "language") "transcribe"
                     true vad_parameters
                   = inr (mkSegmentStream segments_list None, info))
          /\ resp = Base64Content (full_text_of segments_list)
                      (info_language info) (info_language_probability info)
                      (info_duration info)).
Proof.
  split.
  - intros audio model language task s.
    run_handler_with get_model_effects; intros s' resp Heq; try discriminate.
    all: injection Heq as <- <-.
    all: inference_found.
    all: inference_shown.
  - intros request s.
    run_handler_with get_model_effects; intros s' resp Heq; try discriminate.
    all: injection Heq as <- <-.
    all: inference_found.
    all: inference_shown_base64.
Qed.

Ltac count_events :=
  cbn in *;
  repeat match goal with
         | H : _ /\ _ |- _ => destruct H as [? H]
         end;
  try match goal with
      | H : exists evs, trace _ = _ /\ _ |- _ =>
          let evs := fresh "evs" in
          let Htr := fresh "Htr" in
          let Hcr := fresh "Hcr" in
          let Hun := fresh "Hun" in
          let Hinf := fresh "Hinf" in
          let Hld := fresh "Hld" in
          destruct H as (evs & Htr & Hcr & Hun & Hinf & Hld);
          rewrite Htr
      end;
  rewrite <- ?app_assoc;
  first [ eexists; split; [reflexivity|]
        | exists []; split; [symmetry; apply app_nil_r|] ];
  rewrite ?created_app, ?unlinked_app, ?load_count_app, ?inference_count_app;
  cbn;
  repeat match goal with
         | H : created _ = [] |- _ => rewrite H
         | H : unlinked _ = [] |- _ => rewrite H
         | H : inference_count _ = 0 |- _ => rewrite H
         end;
  cbn; repeat split; try lia; try set_solver.

(** X9. Whatever happens, one request creates at most one temporary
    file, removes at most one file and only one it has created, invokes
    the engine constructor at most once and starts at most one
    inference. *)
Theorem one_request_one_file_one_inference :
  (forall audio model language task (s : state),
     exists evs,
       trace (snd (transcribe cfg W audio model language task s))
       = trace s ++ evs
       /\ length (created evs) <= 1
       /\ length (unlinked evs) <= 1
       /\ (forall p, p ∈ unlinked evs -> p ∈ created evs)
       /\ load_count evs <= 1
       /\ inference_count evs <= 1)
  /\ (forall (request : gmap string string) (s : state),
        exists evs,
          trace (snd (transcribe_base64 cfg W request s)) = trace s ++ evs
          /\ length (created evs) <= 1
          /\ length (unlinked evs) <= 1
          /\ (forall p, p ∈ unlinked evs -> p ∈ created evs)
          /\ load_count evs <= 1
          /\ inference_count evs <= 1).
Proof.
  split.
  - intros audio model language task s.
    run_handler_with get_model_events.
    all: count_events.
  - intros request s.
    run_handler_with get_model_events.
    all: count_events.
Qed.



(** X11. [current_model_name] names the model loaded last, not the
    model used last.  After a load of [a] and then a load of [b], a
    request for [a] is served from the cache with the instance of the
    first load, changes nothing, and [/health] still reports [b]. *)
Theorem current_model_is_the_last_loaded_not_the_last_used
    (a b : string) (s s1 s2 : state) (ha hb : WhisperModel) la lb :
  normalize_model_name cfg a <> normalize_model_name cfg b ->
  model_cache s !! normalize_model_name cfg b = None ->
  get_model cfg W a tt s = (inr ha, la, s1) ->
  get_model cfg W b tt s1 = (inr hb, lb, s2) ->
  get_model cfg W a tt s2 = (inr ha, tt, s2)
  /\ current_model_name s2 = Some (normalize_model_name cfg b)
  /\ h_current_model (health s2) = Some (normalize_model_name cfg b).
Proof.
  intros Hne Hmiss Ha Hb.
  pose proof (get_model_spec cfg W a s) as Hsa. cbv zeta in Hsa. rewrite Ha in Hsa.
  pose proof (get_model_spec cfg W b s1) as Hsb. cbv zeta in Hsb. rewrite Hb in Hsb.
  assert (Hca : model_cache s1 !! normalize_model_name cfg a = Some ha).
  { destruct Hsa as [[Hhit ->]|(_ & -> & _)]; [exact Hhit|apply lookup_insert_eq]. }
  assert (Hmiss1 : model_cache s1 !! normalize_model_name cfg b = None).
  { destruct Hsa as [[_ ->]|(_ & -> & _)]; [exact Hmiss|].
    rewrite lookup_insert_ne by exact Hne. exact Hmiss. }
  destruct Hsb as [[Hhit _]|(_ & Hc & Hn & _)];
    [rewrite Hmiss1 in Hhit; discriminate|].
  split; [|split; [exact Hn|unfold health; cbn; exact Hn]].
  apply get_model_hit. rewrite Hc, lookup_insert_ne by congruence. exact Hca.
Qed.




Lemma strip_all_space (text : string) :
  Py.all_space text = true -> Py.strip text = "".
Proof.
  unfold Py.strip. induction text as [|c text IH]; [reflexivity|].
  change (Py.all_space (String c text))
    with (Py.isspace c && Py.all_space text).
  intros [Hc Htext]%andb_true_iff.
  change (Py.lstrip (String c text))
    with (if Py.isspace c then Py.lstrip text else String c text).
  rewrite Hc. apply IH, Htext.
Qed.

(** X13. A segment whose text is all whitespace is stripped to the
    empty string but still joined: alone it gives an empty [full_text],
    before other segments it leaves its separator, so [full_text] then
    begins with a space. *)
Theorem whitespace_segment_leaves_its_separator
    (seg seg' : Segment) (rest : list Segment) :
  Py.all_space (seg_text seg) = true ->
  full_text_of [seg] = ""
  /\ full_text_of (seg :: seg' :: rest) = " " +:+ full_text_of (seg' :: rest)
  /\ sd_text (segment_dict seg) = "".
Proof.
  intros Hspace. unfold full_text_of, segment_dict. cbn [map sd_text].
  change (Py.join " " [Py.strip (seg_text seg)]) with (Py.strip (seg_text seg)).
  change (Py.join " " (Py.strip (seg_text seg) :: Py.strip (seg_text seg')
                         :: map (fun segment => Py.strip (seg_text segment)) rest))
    with (Py.strip (seg_text seg) +:+ " "
          +:+ Py.join " " (Py.strip (seg_text seg')
                             :: map (fun segment => Py.strip (seg_text segment)) rest)).
  rewrite (strip_all_space _ Hspace). auto.
Qed.

Ltac requested_model_only :=
  cbn in *;
  first
    [ solve [left; split; reflexivity]
    | match goal with
      | Hgm : _ \/ _ |- _ =>
          destruct Hgm as [[_ ->]|(Hmiss & Hc & Hn & _)]; cbn;
          [ left; split; reflexivity
          | right; eexists; split; [exact Hmiss|split; [exact Hc|exact Hn]] ]
      | Hgm : _ /\ _ |- _ =>
          destruct Hgm as (_ & Hc & Hn & _); left; split; assumption
      end ].

(** X14. A request changes the two globals in one way only: it may add
    the (normalized) model it asks for, not cached before, to the cache
    and make it [current_model_name].  Otherwise both are what they
    were, also when the request fails after the load. *)
Theorem request_loads_the_requested_model_only :
  (forall audio model language task (s : state),
     let s' := snd (transcribe cfg W audio model language task s) in
     (model_cache s' = model_cache s
      /\ current_model_name s' = current_model_name s)
     \/ exists h,
          model_cache s !! normalize_model_name cfg model = None
          /\ model_cache s' = <[normalize_model_name cfg model := h]> (model_cache s)
          /\ current_model_name s' = Some (normalize_model_name cfg model))
  /\ (forall (request : gmap string string) (s : state),
        let s' := snd (transcribe_base64 cfg W request s) in
        let name := normalize_model_name cfg
                      (default (DEFAULT_MODEL cfg) (request !! "model")) in
        (model_cache s' = model_cache s
         /\ current_model_name s' = current_model_name s)
        \/ exists h,
             model_cache s !! name = None
             /\ model_cache s' = <[name := h]> (model_cache s)
             /\ current_model_name s' = Some name).
Proof.
  split.
  - intros audio model language task s. cbv zeta.
    run_handler_with get_model_spec.
    all: requested_model_only.
  - intros request s. cbv zeta.
    run_handler_with get_model_spec.
    all: requested_model_only.
Qed.

End Requests.

(** ** The further properties on concrete inputs *)

(** X1 on a cache that holds ["small"], through two more requests. *)
Lemma cached_models_are_kept_witness :
  model_cache (steps Sample.cfg_cpu Sample.quiet [OpGetModel "small"]
                 initial_state) !! "small"
  = Some (mkWhisperModel "small" "cpu" "int8" "/root/.cache/whisper" 0)
  /\ model_cache
       (steps Sample.cfg_cpu Sample.quiet
          [OpTranscribe Sample.upload_wav "tiny" None "transcribe";
           OpTranscribeBase64 {["audio" := "AAAA"]}]
          (steps Sample.cfg_cpu Sample.quiet [OpGetModel "small"]
             initial_state)) !! "small"
     = Some (mkWhisperModel "small" "cpu" "int8" "/root/.cache/whisper" 0).
Proof.
  split; [vm_compute; reflexivity|].
  apply (cached_models_are_kept Sample.cfg_cpu Sample.quiet).
  vm_compute. reflexivity.
Defined.

(** X4 on the first request of a server that has loaded nothing. *)
Lemma successful_transcription_means_model_loaded_witness :
  current_iff_loaded initial_state
  /\ h_model_loaded
       (health (snd (transcribe Sample.cfg_cpu Sample.quiet Sample.upload_wav
                       "base" None "transcribe" initial_state)))
     = true.
Proof.
  assert (Hinit : current_iff_loaded initial_state)
    by (split; reflexivity).
  split; [exact Hinit|].
  apply (proj1 (successful_transcription_means_model_loaded Sample.cfg_cpu
                  Sample.quiet initial_state Hinit)
           Sample.upload_wav "base" None "transcribe"
           (TranscribeContent "Hello world" "en" 0%N 0%N
              [mkSegmentDict 0%N 0%N "Hello" 0%N;
               mkSegmentDict 0%N 0%N "world" 0%N])).
  vm_compute. reflexivity.
Defined.

(** X7 on a disk that holds one file, through a request that fails. *)
Lemma files_on_disk_are_untouched_witness :
  disk (mkState ∅ None {["/srv/notes.txt" := [x68; x69]]} 0 [])
    !! "/srv/notes.txt" = Some [x68; x69]
  /\ disk (snd (transcribe Sample.cfg_cpu Sample.deaf Sample.upload_wav "base"
                  None "transcribe"
                  (mkState ∅ None {["/srv/notes.txt" := [x68; x69]]} 0 [])))
       !! "/srv/notes.txt" = Some [x68; x69].
Proof.
  split; [reflexivity|].
  assert (Hfile : disk (mkState ∅ None {["/srv/notes.txt" := [x68; x69]]} 0 [])
                    !! "/srv/notes.txt" = Some [x68; x69])
    by reflexivity.
  apply (proj1 (files_on_disk_are_untouched Sample.cfg_cpu Sample.deaf
                  (mkState ∅ None {["/srv/notes.txt" := [x68; x69]]} 0 [])
                  "/srv/notes.txt" [x68; x69] Hfile)).
Defined.

(** X8 on a request that goes through. *)
Lemma engine_is_given_the_request_audio_witness :
  transcribe Sample.cfg_cpu Sample.quiet Sample.upload_wav "base" None
    "transcribe" initial_state
  = (inr (TranscribeContent "Hello world" "en" 0%N 0%N
            [mkSegmentDict 0%N 0%N "Hello" 0%N;
             mkSegmentDict 0%N 0%N "world" 0%N]),
     snd (transcribe Sample.cfg_cpu Sample.quiet Sample.upload_wav "base"
            None "transcribe" initial_state))
  /\ exists segments_list info whisper_model name evs,
       trace (snd (transcribe Sample.cfg_cpu Sample.quiet Sample.upload_wav
                     "base" None "transcribe" initial_state))
       = trace initial_state ++ evs
       /\ created evs = [name]
       /\ disk initial_state !! name = None
       /\ EvWriteFile name (content Sample.upload_wav) ∈ evs
       /\ EvTranscribe whisper_model (Some name) None "transcribe" true
            vad_parameters ∈ evs
       /\ inference_count evs = 1
       /\ model_cache
            (snd (transcribe Sample.cfg_cpu Sample.quiet Sample.upload_wav
                    "base" None "transcribe" initial_state))
          !! normalize_model_name Sample.cfg_cpu "base" = Some whisper_model
       /\ (exists t,
             clock initial_state <= t
             < clock (snd (transcribe Sample.cfg_cpu Sample.quiet
                             Sample.upload_wav "base" None "transcribe"
                             initial_state))
             /\ WhisperModel_transcribe Sample.quiet t whisper_model
                  (Some name) (Some (content Sample.upload_wav)) None
                  "transcribe" true vad_parameters
                = inr (mkSegmentStream segments_list None, info))
       /\ TranscribeContent "Hello world" "en" 0%N 0%N
            [mkSegmentDict 0%N 0%N "Hello" 0%N;
             mkSegmentDict 0%N 0%N "world" 0%N]
          = TranscribeContent (full_text_of segments_list)
              (info_language info) (info_language_probability info)
              (info_duration info) (map segment_dict segments_list).
Proof.
  assert (Hrun :
    transcribe Sample.cfg_cpu Sample.quiet Sample.upload_wav "base" None
      "transcribe" initial_state
    = (inr (TranscribeContent "Hello world" "en" 0%N 0%N
              [mkSegmentDict 0%N 0%N "Hello" 0%N;
               mkSegmentDict 0%N 0%N "world" 0%N]),
       snd (transcribe Sample.cfg_cpu Sample.quiet Sample.upload_wav "base"
              None "transcribe" initial_state)))
    by (vm_compute; reflexivity).
  split; [exact Hrun|].
  exact (proj1 (engine_is_given_the_request_audio Sample.cfg_cpu Sample.quiet)
           Sample.upload_wav "base" None "transcribe" initial_state _ _ Hrun).
Defined.

(** X11 on ["small"], then ["tiny"], then ["small"] again. *)
Lemma current_model_is_the_last_loaded_witness :
  get_model Sample.cfg_cpu Sample.quiet "small" tt
    (snd (get_model Sample.cfg_cpu Sample.quiet "tiny" tt
            (snd (get_model Sample.cfg_cpu Sample.quiet "small" tt
                    initial_state))))
  = (inr (mkWhisperModel "small" "cpu" "int8" "/root/.cache/whisper" 0), tt,
     snd (get_model Sample.cfg_cpu Sample.quiet "tiny" tt
            (snd (get_model Sample.cfg_cpu Sample.quiet "small" tt
                    initial_state))))
  /\ current_model_name
       (snd (get_model Sample.cfg_cpu Sample.quiet "tiny" tt
               (snd (get_model Sample.cfg_cpu Sample.quiet "small" tt
                       initial_state))))
     = Some (normalize_model_name Sample.cfg_cpu "tiny")
  /\ h_current_model
       (health (snd (get_model Sample.cfg_cpu Sample.quiet "tiny" tt
                       (snd (get_model Sample.cfg_cpu Sample.quiet "small" tt
                               initial_state)))))
     = Some (normalize_model_name Sample.cfg_cpu "tiny").
Proof.
  apply (current_model_is_the_last_loaded_not_the_last_used Sample.cfg_cpu
           Sample.quiet "small" "tiny" initial_state
           (snd (get_model Sample.cfg_cpu Sample.quiet "small" tt initial_state))
           (snd (get_model Sample.cfg_cpu Sample.quiet "tiny" tt
                   (snd (get_model Sample.cfg_cpu Sample.quiet "small" tt
                           initial_state))))
           (mkWhisperModel "small" "cpu" "int8" "/root/.cache/whisper" 0)
           (mkWhisperModel "tiny" "cpu" "int8" "/root/.cache/whisper" 1)
           tt tt);
    [discriminate | reflexivity | vm_compute; reflexivity
    | vm_compute; reflexivity].
Defined.

(** X13 on a segment of two spaces before the segment ["ok"]. *)
Lemma whitespace_segment_leaves_its_separator_witness :
  Py.all_space "  " = true
  /\ full_text_of [mkSegment 0%N 0%N "  " 0%N] = ""
  /\ full_text_of [mkSegment 0%N 0%N "  " 0%N; mkSegment 0%N 0%N "ok" 0%N]
     = " " +:+ full_text_of [mkSegment 0%N 0%N "ok" 0%N]
  /\ sd_text (segment_dict (mkSegment 0%N 0%N "  " 0%N)) = "".
Proof.
  split; [reflexivity|].
  apply (whitespace_segment_leaves_its_separator
           (mkSegment 0%N 0%N "  " 0%N) (mkSegment 0%N 0%N "ok" 0%N) []).
  reflexivity.
Defined.
